(** * Flask-news: the request handlers of [app.py] and their derived fields

    A shallow embedding of [analyze] and [analyze_local] (src/app.py).
    The two external collaborators (newspaper's [Article] and
    [TextBlob]) and the file system are inputs of the handlers; Python
    values the handlers compute with are modelled as they are at run
    time: [str] as a sequence of code points, [float] as IEEE-754
    binary64 ([spec_float]), [int] as [Z], a [dict] as its items,
    exceptions as an error monad closed by the handlers'
    [try ... except Exception].  The download of NLTK resources at
    start-up ([ensure_nltk_resources]) is modelled with its effects,
    and the client script [test_post.py] as a function of what the
    server answers.

    Left out, since no response depends on them: the calls of
    [app.logger] in the handlers and the static index page
    ([serve_index]). *)

From Stdlib Require Import ZArith List Bool Lia Setoid Permutation.
From Stdlib Require Import String Ascii DecimalString.
From Stdlib Require Import Floats.SpecFloat.
Import ListNotations.

(** ** Python [str] *)

Module PyStr.

(** A [str] is a sequence of Unicode code points. *)
Definition pychar := N.
Definition pystr := list pychar.

(** A literal of the source (all of them are ASCII). *)
Definition lit (s : string) : pystr :=
  map N_of_ascii (list_ascii_of_string s).

Definition eqb (s t : pystr) : bool :=
  if list_eq_dec N.eq_dec s t then true else false.

(** [str.isspace] on one code point: the ASCII table of CPython
    ([\t \n \v \f \r], FS, GS, RS, US, space) and the Unicode
    white-space code points. *)
Definition isspace (c : pychar) : bool :=
  (((9 <=? c) && (c <=? 13)) || ((28 <=? c) && (c <=? 32))
   || (c =? 133) || (c =? 160) || (c =? 5760)
   || ((8192 <=? c) && (c <=? 8202))
   || (c =? 8232) || (c =? 8233) || (c =? 8239) || (c =? 8287)
   || (c =? 12288))%N.

Fixpoint lstrip (s : pystr) : pystr :=
  match s with
  | [] => []
  | c :: s' => if isspace c then lstrip s' else s
  end.

Definition rstrip (s : pystr) : pystr := rev (lstrip (rev s)).

(** Empty or white space only *)
Definition blank (s : pystr) : bool := forallb isspace s.

(** [s.strip()] *)
Definition strip (s : pystr) : pystr := rstrip (lstrip s).

(** [s.split()]: the maximal runs of non-white-space characters, in
    order.  [cur] is the run being read, most recent character
    first. *)
Fixpoint split_from (cur s : pystr) : list pystr :=
  match s with
  | [] => match cur with [] => [] | _ => [rev cur] end
  | c :: s' =>
      if isspace c
      then match cur with
           | [] => split_from [] s'
           | _ => rev cur :: split_from [] s'
           end
      else split_from (c :: cur) s'
  end.

Definition split (s : pystr) : list pystr := split_from [] s.

(** [sep.join(l)] *)
Fixpoint join (sep : pystr) (l : list pystr) : pystr :=
  match l with
  | [] => []
  | [x] => x
  | x :: l' => x ++ sep ++ join sep l'
  end.

(** [len(s)], of a [str] or of a [list] *)
Definition len {A : Type} (s : list A) : Z := Z.of_nat (List.length s).

(** [s[:n]] for a constant [n >= 0] *)
Definition prefix (n : nat) (s : pystr) : pystr := firstn n s.

(** [str(n)] for an [int] *)
Definition of_int (n : Z) : pystr :=
  lit (NilEmpty.string_of_int (Z.to_int n)).

(** Truth value of a [str] *)
Definition truthy (s : pystr) : bool :=
  match s with [] => false | _ => true end.

End PyStr.

(** ** Exceptions *)

Module Exc.
Import PyStr.

(** A computation returns a value or raises an exception, of which
    the handlers only use [str(e)].  [Raise] stands for an exception
    of the class Exception, the one the handlers catch; an exception
    outside it (KeyboardInterrupt, SystemExit) is caught by no handler
    and ends in no response: the handlers are modelled for
    collaborators that raise none. *)
Inductive outcome (A : Type) : Type :=
| Return (a : A)
| Raise (msg : pystr).
Arguments Return {A} a.
Arguments Raise {A} msg.

Definition bind {A B : Type} (m : outcome A) (k : A -> outcome B)
  : outcome B :=
  match m with
  | Return a => k a
  | Raise msg => Raise msg
  end.

(** [try: m  except Exception as e: h(str(e))] *)
Definition try_except {A : Type} (m : outcome A) (h : pystr -> A) : A :=
  match m with
  | Return a => a
  | Raise msg => h msg
  end.

End Exc.

Notation "x <- m ;; k" := (Exc.bind m (fun x => k))
  (at level 61, m at next level, right associativity).

(** ** Python [float] and the arithmetic of the handlers *)

Module PyFloat.
Import PyStr Exc.
Local Open Scope Z_scope.

(** A [float] is a binary64 value. *)
Definition float := spec_float.

(** [x < y], [x <= y], [x == y] on floats (all false on NaN). *)
Definition ltb (x y : float) : bool := SFltb x y.
Definition leb (x y : float) : bool := SFleb x y.
Definition eqb (x y : float) : bool := SFeqb x y.

Definition is_nan (x : float) : bool :=
  match x with S754_nan => true | _ => false end.

(** [2^e] for [e >= 0], and [1] below. *)
Definition pow2p (e : Z) : Z := 2 ^ Z.max 0 e.

(** The rational [n/d * 2^e] as a fraction (for [d > 0]): a positive
    [e] multiplies the numerator, a negative one the denominator. *)
Definition shift_frac (n d e : Z) : Z * Z :=
  (n * pow2p e, d * pow2p (- e)).

(** The integer nearest to [n/d], ties to the even one ([d > 0]). *)
Definition round_half_even (n d : Z) : Z :=
  let q := n / d in
  match 2 * (n mod d) ?= d with
  | Lt => q
  | Gt => q + 1
  | Eq => if Z.even q then q else q + 1
  end.

Definition round_frac (f : Z * Z) : Z := round_half_even (fst f) (snd f).

(** [floor (log2 (a/b))] for [a, b > 0]. *)
Definition floor_log2_ratio (a b : Z) : Z :=
  let k := Z.log2 a - Z.log2 b in
  let '(n, d) := shift_frac a b (- k) in
  if n <? d then k - 1 else k.

(** The 53-bit significand and the exponent of the binary
    floating-point number nearest to [a/b] (ties to even), for
    [a, b > 0]: [a/b] is about [m * 2^e] with [2^52 <= m <= 2^53]. *)
Definition nearest53 (a b : Z) : Z * Z :=
  let e := floor_log2_ratio a b - 52 in
  (round_frac (shift_frac a b (- e)), e).

(** When rounding carried into the 54th bit the significand is
    [2^53], written [2^52] one exponent higher. *)
Definition normalise53 (me : Z * Z) : Z * Z :=
  let '(m, e) := me in
  if m =? 2 ^ 53 then (2 ^ 52, e + 1) else (m, e).

(** The float nearest to [(-1)^s * a/b], for [a >= 0] and [b > 0].
    The exponent range of binary64 is not consulted: the quotients
    of the handlers ([word_count / 200], a score rounded to
    hundredths) are far from both of its ends, where the result is a
    binary64 value (see [float_of_ratio_valid]). *)
Definition float_of_ratio (s : bool) (a b : Z) : float :=
  if a =? 0 then S754_zero s
  else let '(m, e) := normalise53 (nearest53 a b) in
       S754_finite s (Z.to_pos m) e.

(** [a / b] for an [int] and a positive [int] literal: the correctly
    rounded quotient. *)
Definition int_truediv (a : Z) (b : positive) : float :=
  float_of_ratio (a <? 0) (Z.abs a) (Zpos b).

(** The integer nearest to [m * 2^e], ties to even. *)
Definition round_of_parts (me : Z * Z) : Z :=
  round_frac (shift_frac (fst me) 1 (snd me)).

(** [round(x)]: the nearest integer, ties to even; raises on NaN and
    on the infinities. *)
Definition py_round (x : float) : outcome Z :=
  match x with
  | S754_zero _ => Return 0
  | S754_finite s m e =>
      let r := round_of_parts (Zpos m, e) in
      Return (if s then - r else r)
  | S754_nan => Raise (lit "cannot convert float NaN to integer")
  | S754_infinity _ =>
      Raise (lit "cannot convert float infinity to integer")
  end.

(** [round(x, 2)]: the float nearest to [x] rounded to hundredths
    (on the exact value of [x], ties to even); NaN, the infinities
    and the zeros round to themselves, and the sign is kept. *)
Definition py_round2 (x : float) : float :=
  match x with
  | S754_finite s m e =>
      float_of_ratio s (round_of_parts (Zpos m * 100, e)) 100
  | _ => x
  end.

(** The numeric literals of the source. *)
Definition zero : float := S754_zero false.
Definition lit_0_3 : float := int_truediv 3 10.
Definition lit_0_5 : float := int_truediv 5 10.
Definition lit_0_7 : float := int_truediv 7 10.
Definition one : float := int_truediv 1 1.

End PyFloat.

(** ** JSON values: the request body and the response dictionaries *)

Module Json.
Import PyStr Exc PyFloat.

(** What [request.get_json()] returns and what [jsonify] is given.
    A [dict] is kept as its items in insertion order. *)
#[warnings="-register-all"]
Inductive json : Type :=
| JNull
| JBool (b : bool)
| JInt (n : Z)
| JFloat (x : float)
| JStr (s : pystr)
| JList (l : list json)
| JDict (d : list (pystr * json)).

Definition dict := list (pystr * json).

(** Truth value of a Python object ([not v] is its negation). *)
Definition truthy (v : json) : bool :=
  match v with
  | JNull => false
  | JBool b => b
  | JInt n => negb (n =? 0)%Z
  | JFloat (S754_zero _) => false
  | JFloat _ => true
  | JStr s => PyStr.truthy s
  | JList l => match l with [] => false | _ => true end
  | JDict d => match d with [] => false | _ => true end
  end.

Fixpoint lookup (d : dict) (k : pystr) : option json :=
  match d with
  | [] => None
  | (k', v) :: d' => if PyStr.eqb k' k then Some v else lookup d' k
  end.

Definition type_name (v : json) : pystr :=
  match v with
  | JNull => lit "NoneType"
  | JBool _ => lit "bool"
  | JInt _ => lit "int"
  | JFloat _ => lit "float"
  | JStr _ => lit "str"
  | JList _ => lit "list"
  | JDict _ => lit "dict"
  end.

(** [data.get(k)]: [dict.get] with its default [None]; any other
    JSON value has no attribute [get] (AttributeError). *)
Definition get (data : json) (k : pystr) : outcome json :=
  match data with
  | JDict d =>
      Return (match lookup d k with Some v => v | None => JNull end)
  | _ =>
      Raise (lit "'" ++ type_name data
               ++ lit "' object has no attribute 'get'")
  end.

End Json.

(** ** The application: [app.py] *)

Module Article.
Import PyStr.
(** The attributes of a newspaper [Article] the handler reads after
    [download()], [parse()] and [nlp()]. *)
Record t := { title : pystr; authors : list pystr;
              text : pystr; summary : pystr }.
End Article.

Module TextBlob.
Import PyFloat.
(** The two properties of a [TextBlob] the handlers read. *)
Record t := { polarity : float; subjectivity : float }.
End TextBlob.

Module App.
Import PyStr Exc PyFloat Json.
Local Open Scope Z_scope.

(** Everything outside the handlers that one request depends on. *)
Record World := {
  (** [request.get_json()]: the parsed body, or the exception of a
      body that is not JSON *)
  get_json : outcome json;
  (** [Article(url)], [download()], [parse()], [nlp()]: the article,
      or the first exception one of the four calls raises *)
  fetch_article : json -> outcome Article.t;
  (** [TextBlob(text)] and its [polarity] and [subjectivity] *)
  text_blob : pystr -> outcome TextBlob.t;
  (** [sample_article.txt]: [None] when [os.path.exists] is false,
      else what [open] and [read] give *)
  sample_file : option (outcome pystr)
}.

(** A view function returns the [jsonify]-ed object and a status. *)
Definition response := (json * Z)%type.

(** Lines 65 and 109 *)
Definition sentiment (polarity : float) : pystr :=
  if ltb zero polarity then lit "Positive"
  else if ltb polarity zero then lit "Negative"
  else lit "Neutral".

(** Lines 67 and 111 *)
Definition bias (subjectivity : float) : pystr :=
  if ltb subjectivity lit_0_3 then lit "Low"
  else if ltb subjectivity lit_0_7 then lit "Moderate"
  else lit "High".

(** Lines 68 and 112 *)
Definition credibility (subjectivity : float) : pystr :=
  if ltb subjectivity lit_0_5 then lit "True" else lit "False".

(** [round(word_count / 200)], lines 71 and 115 *)
Definition reading_minutes (word_count : Z) : outcome Z :=
  py_round (int_truediv word_count 200).

(** Lines 71 and 115 *)
Definition reading_time (word_count : Z) : outcome pystr :=
  minutes <- reading_minutes word_count ;;
  Return (of_int minutes ++ lit " min read").

(** [POST /analyze], lines 46-88 *)
Definition analyze (w : World) : response :=
  try_except
    (data <- get_json w ;;
     url <- get data (lit "url") ;;
     if negb (truthy url)
     then Return (JDict [(lit "error", JStr (lit "No URL provided"))], 400)
     else
       article <- fetch_article w url ;;
       if negb (PyStr.truthy (Article.text article))
       then Return (JDict [(lit "error",
                            JStr (lit "Unable to fetch article content"))],
                    400)
       else
         analysis <- text_blob w (Article.text article) ;;
         let polarity := py_round2 (TextBlob.polarity analysis) in
         let sentiment := sentiment polarity in
         let subjectivity := TextBlob.subjectivity analysis in
         let bias := bias subjectivity in
         let credibility := credibility subjectivity in
         let word_count := len (split (Article.text article)) in
         reading_time <- reading_time word_count ;;
         Return
           (JDict
              [(lit "title",
                JStr (if PyStr.truthy (Article.title article)
                      then Article.title article else lit "N/A"));
               (lit "author",
                JStr (match Article.authors article with
                      | [] => lit "N/A"
                      | _ => join (lit ", ") (Article.authors article)
                      end));
               (lit "summary",
                JStr (if PyStr.truthy (Article.summary article)
                      then Article.summary article else lit "N/A"));
               (lit "sentiment", JStr sentiment);
               (lit "polarity", JFloat polarity);
               (lit "bias", JStr bias);
               (lit "credibility", JStr credibility);
               (lit "word_count", JInt word_count);
               (lit "reading_time", JStr reading_time)],
            200))
    (fun e =>
       (JDict [(lit "error",
                JStr (lit "Failed to analyze article: " ++ e))],
        500)).

(** [GET /analyze_local], lines 91-131 *)
Definition analyze_local (w : World) : response :=
  try_except
    (match sample_file w with
     | None =>
         Return (JDict [(lit "error",
                         JStr (lit "sample_article.txt not found"))],
                 400)
     | Some read =>
         text <- read ;;
         if negb (PyStr.truthy (strip text))
         then Return (JDict [(lit "error",
                              JStr (lit "sample article is empty"))],
                      400)
         else
           analysis <- text_blob w text ;;
           let polarity := py_round2 (TextBlob.polarity analysis) in
           let sentiment := sentiment polarity in
           let subjectivity := TextBlob.subjectivity analysis in
           let bias := bias subjectivity in
           let credibility := credibility subjectivity in
           let word_count := len (split text) in
           reading_time <- reading_time word_count ;;
           Return
             (JDict
                [(lit "title", JStr (lit "Sample Article"));
                 (lit "author", JStr (lit "Local Test"));
                 (lit "summary",
                  JStr (prefix 300 text
                        ++ (if 300 <? len text then lit "..." else [])));
                 (lit "sentiment", JStr sentiment);
                 (lit "polarity", JFloat polarity);
                 (lit "bias", JStr bias);
                 (lit "credibility", JStr credibility);
                 (lit "word_count", JInt word_count);
                 (lit "reading_time", JStr reading_time)],
              200)
     end)
    (fun e => (JDict [(lit "error", JStr e)], 500)).

(** The value of a key of a response's JSON object. *)
Definition field (k : string) (r : response) : option json :=
  match fst r with
  | JDict d => lookup d (lit k)
  | _ => None
  end.

Definition status (r : response) : Z := snd r.

(** [jsonify({'error': msg}), code] *)
Definition error_response (msg : pystr) (code : Z) : response :=
  (JDict [(lit "error", JStr msg)], code).

End App.

(** ** What happens during one request

    The ways through the two handlers, as conditions on the [World]:
    they name the states that the properties below are about. *)

Module Run.
Import PyStr Exc PyFloat Json App.

(** The body is a JSON object whose member [url] is [v]
    ([None]: there is no such member). *)
Definition url_field (w : World) (v : option json) : Prop :=
  exists d, get_json w = Return (JDict d) /\ lookup d (lit "url") = v.

(** The [url] of the request is absent or empty (falsy: [null],
    the empty string, and also [0], [false], [[]] and [{}]). *)
Definition no_url (w : World) : Prop :=
  url_field w None
  \/ exists v, url_field w (Some v) /\ truthy v = false.

Definition url_given (w : World) (url : json) : Prop :=
  url_field w (Some url) /\ truthy url = true.

(** The JSON values that Python takes for false, listed: [null],
    [false], the numbers [0], [0.0] and [-0.0], the empty string, the
    empty array and the empty object. *)
Definition empty_value (v : json) : Prop :=
  v = JNull \/ v = JBool false \/ v = JInt 0
  \/ (exists s, v = JFloat (S754_zero s))
  \/ v = JStr [] \/ v = JList [] \/ v = JDict [].

(** The member [url] of the body, when the body is a JSON object
    that has one. *)
Definition request_url (w : World) : option json :=
  match get_json w with
  | Return (JDict d) => lookup d (lit "url")
  | _ => None
  end.

(** The body is JSON but not an object: [data.get] does not exist. *)
Definition not_an_object (w : World) (e : pystr) : Prop :=
  exists data, get_json w = Return data /\ get data (lit "url") = Raise e.

(** [analyze] reaches line 63 with this article, and [TextBlob]
    gives this analysis of its text. *)
Definition analyze_run (w : World) (article : Article.t)
    (analysis : TextBlob.t) : Prop :=
  exists url,
    url_given w url
    /\ fetch_article w url = Return article
    /\ Article.text article <> []
    /\ text_blob w (Article.text article) = Return analysis.

(** The [try] block of [analyze] raises an exception of message [e]:
    in [get_json], in [data.get], in the article calls or in
    [TextBlob]. *)
Definition analyze_raises (w : World) (e : pystr) : Prop :=
  get_json w = Raise e
  \/ not_an_object w e
  \/ (exists url, url_given w url /\ fetch_article w url = Raise e)
  \/ (exists url article,
        url_given w url
        /\ fetch_article w url = Return article
        /\ Article.text article <> []
        /\ text_blob w (Article.text article) = Raise e).

(** The same, with the url that is given and the place of the
    exception written out: [get_json] raises; or the body is not a
    JSON object, and [data.get] raises an AttributeError; or the
    [url] of the body is not empty, and the article calls raise, or
    [TextBlob] does on a text that is not empty. *)
Definition analyze_fails (w : World) (e : pystr) : Prop :=
  get_json w = Raise e
  \/ (exists data,
        get_json w = Return data
        /\ (forall d, data <> JDict d)
        /\ e = lit "'" ++ type_name data
                ++ lit "' object has no attribute 'get'")
  \/ (exists d url,
        get_json w = Return (JDict d)
        /\ lookup d (lit "url") = Some url
        /\ ~ empty_value url
        /\ (fetch_article w url = Raise e
            \/ exists article,
                 fetch_article w url = Return article
                 /\ Article.text article <> []
                 /\ text_blob w (Article.text article) = Raise e)).

(** [analyze_local] reads this text, which is not blank, and
    [TextBlob] gives this analysis of it. *)
Definition analyze_local_run (w : World) (text : pystr)
    (analysis : TextBlob.t) : Prop :=
  sample_file w = Some (Return text)
  /\ blank text = false
  /\ text_blob w text = Return analysis.

(** The [try] block of [analyze_local] raises: in [open] or [read],
    or in [TextBlob]. *)
Definition analyze_local_raises (w : World) (e : pystr) : Prop :=
  sample_file w = Some (Raise e)
  \/ (exists text,
        sample_file w = Some (Return text)
        /\ blank text = false
        /\ text_blob w text = Raise e).

(** [r] is the response of a handler whose run got [analysis] from
    [TextBlob]. *)
Definition analysed (w : World) (analysis : TextBlob.t) (r : response)
  : Prop :=
  (exists article, analyze_run w article analysis /\ r = analyze w)
  \/ (exists text, analyze_local_run w text analysis
                   /\ r = analyze_local w).

End Run.

(** ** Start-up: [ensure_nltk_resources], lines 18-39 *)

Module Nltk.
Import PyStr Exc.

(** The levels the function logs at. *)
Inductive level : Type := DEBUG | INFO | WARNING.

(** [nltk.data.find(path)]: it returns, raises a LookupError (the one
    class the loop catches around it), or raises something else. *)
Inductive find_result : Type :=
| Found
| LookupError
| OtherError (msg : pystr).

(** What the function does to the outside, in order: its calls of
    [nltk.data.find] and [nltk.download] and the records it gives to
    [app_obj.logger]. *)
Inductive effect : Type :=
| Find (path : pystr)
| Download (name : pystr)
| Log (l : level) (msg : pystr).

(** [nltk.download(name)]: it returns a [bool], raises an exception
    of the class Exception (what line 35 catches), or raises one
    outside that class (KeyboardInterrupt, SystemExit), which no
    handler of the function catches. *)
Inductive download_result : Type :=
| Returned (ok : bool)
| Failed (msg : pystr)
| Interrupted (msg : pystr).

(** NLTK over its data directories, whose state is a [store]:
    [nltk.download(name)] may change it. *)
Record Data (store : Type) : Type := {
  find : pystr -> store -> find_result;
  download : pystr -> store -> store * download_result
}.
Arguments find {store} _ _ _.
Arguments download {store} _ _ _.

(** The dictionary [resources], in the order of its items. *)
Definition resources : list (pystr * pystr) :=
  [(lit "punkt", lit "tokenizers/punkt");
   (lit "punkt_tab", lit "tokenizers/punkt_tab");
   (lit "averaged_perceptron_tagger",
    lit "taggers/averaged_perceptron_tagger");
   (lit "maxent_ne_chunker", lit "chunkers/maxent_ne_chunker");
   (lit "words", lit "corpora/words")].

(** The [for] loop over the items that are left. *)
Fixpoint ensure_loop {store : Type} (nltk : Data store)
    (items : list (pystr * pystr)) (st : store)
  : store * list effect * outcome unit :=
  match items with
  | [] => (st, [], Return tt)
  | (name, path) :: items' =>
      match find nltk path st with
      | Found =>
          let '(st', effects, r) := ensure_loop nltk items' st in
          (st',
           Find path
             :: Log DEBUG (lit "NLTK resource found: " ++ path)
             :: effects,
           r)
      | LookupError =>
          let '(st1, d) := download nltk name st in
          let attempt :=
            [Find path;
             Log INFO (lit "NLTK resource not found: " ++ path
                         ++ lit ". Downloading '" ++ name ++ lit "'...");
             Download name] in
          match d with
          | Returned _ =>
              let '(st', effects, r) := ensure_loop nltk items' st1 in
              (st',
               attempt
                 ++ Log INFO (lit "Downloaded NLTK resource: " ++ name)
                 :: effects,
               r)
          | Failed e =>
              let '(st', effects, r) := ensure_loop nltk items' st1 in
              (st',
               attempt
                 ++ Log WARNING (lit "Failed to download NLTK resource '"
                                   ++ name ++ lit "': " ++ e)
                 :: effects,
               r)
          | Interrupted e => (st1, attempt, Raise e)
          end
      | OtherError e => (st, [Find path], Raise e)
      end
  end.

(** [ensure_nltk_resources(app_obj)]: the store it leaves, its
    effects, and whether it returns or raises. *)
Definition ensure_nltk_resources {store : Type} (nltk : Data store)
    (st : store) : store * list effect * outcome unit :=
  ensure_loop nltk resources st.

(** Parts of a list of effects *)
Definition finds (effects : list effect) : list pystr :=
  flat_map (fun x => match x with Find p => [p] | _ => [] end) effects.

Definition downloads (effects : list effect) : list pystr :=
  flat_map (fun x => match x with Download n => [n] | _ => [] end) effects.

Definition logs (effects : list effect) : list (level * pystr) :=
  flat_map (fun x => match x with Log l m => [(l, m)] | _ => [] end) effects.

(** Conditions on NLTK that some of the properties assume.
    [nltk.data.find] raises nothing but LookupError: *)
Definition find_only_lookup_errors {store : Type} (nltk : Data store)
  : Prop :=
  forall path st e, find nltk path st <> OtherError e.

(** [nltk.download] raises nothing outside the class Exception: *)
Definition download_only_exceptions {store : Type} (nltk : Data store)
  : Prop :=
  forall name st e, snd (download nltk name st) <> Interrupted e.

(** a download removes nothing that was found: *)
Definition download_keeps {store : Type} (nltk : Data store) : Prop :=
  forall name path st,
    find nltk path st = Found ->
    find nltk path (fst (download nltk name st)) = Found.

(** a download of a listed resource installs it: *)
Definition download_installs {store : Type} (nltk : Data store) : Prop :=
  forall name path st,
    In (name, path) resources ->
    find nltk path (fst (download nltk name st)) = Found.

(** two ways NLTK can behave differ only in the [bool] that
    [nltk.download] returns. *)
Definition same_but_result {store : Type} (nltk1 nltk2 : Data store)
  : Prop :=
  (forall path st, find nltk1 path st = find nltk2 path st)
  /\ (forall name st,
        fst (download nltk1 name st) = fst (download nltk2 name st)
        /\ match snd (download nltk1 name st),
                 snd (download nltk2 name st) with
           | Returned _, Returned _ => True
           | Failed e1, Failed e2 => e1 = e2
           | Interrupted e1, Interrupted e2 => e1 = e2
           | _, _ => False
           end).

(** NLTK with the [bool] of every download that returns replaced by
    [b]. *)
Definition with_result {store : Type} (b : bool) (nltk : Data store)
  : Data store :=
  {| find := find nltk;
     download := fun name st =>
       (fst (download nltk name st),
        match snd (download nltk name st) with
        | Returned _ => Returned b
        | other => other
        end) |}.

(** The call at which the loop was left with the exception [e]: a
    [nltk.data.find] that raised it, or a [nltk.download] that raised
    it from outside the class Exception; [st'] is the store that was
    left and [effects] are the effects up to that call. *)
Definition left_at {store : Type} (nltk : Data store) (name path : pystr)
    (st' : store) (effects : list effect) (e : pystr) : Prop :=
  exists before,
    (find nltk path st' = OtherError e
     /\ effects = before ++ [Find path])
    \/ (exists st0,
          find nltk path st0 = LookupError
          /\ download nltk name st0 = (st', Interrupted e)
          /\ effects
             = before
               ++ [Find path;
                   Log INFO (lit "NLTK resource not found: " ++ path
                               ++ lit ". Downloading '" ++ name
                               ++ lit "'...");
                   Download name]).

(** The effects of an item that is found. *)
Definition found_effects (item : pystr * pystr) : list effect :=
  [Find (snd item); Log DEBUG (lit "NLTK resource found: " ++ snd item)].

(** A data directory as the list of the paths it holds, with a
    download that installs the resource of that name. *)
Definition holds (st : list pystr) (path : pystr) : bool :=
  existsb (PyStr.eqb path) st.

Fixpoint path_of (items : list (pystr * pystr)) (name : pystr)
  : option pystr :=
  match items with
  | [] => None
  | (n, p) :: items' => if PyStr.eqb n name then Some p else path_of items' name
  end.

Definition online : Data (list pystr) :=
  {| find := fun path st => if holds st path then Found else LookupError;
     download := fun name st =>
       match path_of resources name with
       | Some p => (p :: st, Returned true)
       | None => (st, Returned false)
       end |}.

(** The same directory without a network: [nltk.download] reports the
    failure by returning [False]. *)
Definition offline : Data (list pystr) :=
  {| find := find online;
     download := fun name st => (st, Returned false) |}.

(** A directory whose downloader raises. *)
Definition broken : Data (list pystr) :=
  {| find := find online;
     download := fun name st =>
       (st, Failed (lit "HTTP Error 403: Forbidden")) |}.

(** A download that the user interrupts with Ctrl-C. *)
Definition interrupted : Data (list pystr) :=
  {| find := find online;
     download := fun name st => (st, Interrupted (lit "KeyboardInterrupt")) |}.

(** A directory that cannot be read at all. *)
Definition unreadable : Data (list pystr) :=
  {| find := fun path st => OtherError (lit "Permission denied");
     download := download online |}.

End Nltk.

(** ** The client script: [test_post.py] *)

Module TestPost.
Import PyStr Exc Json.
Local Open Scope Z_scope.

Definition url : pystr :=
  lit "https://apnews.com/article/hurricane-melissa-farmers-jamaica-cuba-"
  ++ lit "haiti-wfp-880f6182c6054f8b65a34872d9e211cc".

Definition endpoint : pystr := lit "http://127.0.0.1:3000/analyze".

(** The [json=] argument of the request. *)
Definition body : json := JDict [(lit "url", JStr url)].

(** The script, given what [requests.post] does with an address and a
    JSON body (the status code and the text of the response, or an
    exception): the lines it prints and its exit status. *)
Definition main (post : pystr -> json -> outcome (Z * pystr))
  : list pystr * Z :=
  match post endpoint body with
  | Return (status_code, text) =>
      ([lit "STATUS: " ++ of_int status_code; lit "RESPONSE: " ++ text], 0)
  | Raise e => ([lit "EXC: " ++ e], 1)
  end.

End TestPost.

(** ** Characters that belong to a word *)

Module Text.
Import PyStr.

Definition nonspace (c : pychar) : bool := negb (isspace c).

End Text.

(** ** Floats below a constant *)

Module Order.
Import PyFloat.
Local Open Scope Z_scope.

(** [s < c] for the positive finite float [c] of significand [mc]
    and exponent [ec], read on the parts of [s]. *)
Definition below (s : float) (mc : positive) (ec : Z) : Prop :=
  match s with
  | S754_nan => False
  | S754_infinity sg => sg = true
  | S754_zero _ => True
  | S754_finite true _ _ => True
  | S754_finite false m e => e < ec \/ (e = ec /\ Zpos m < Zpos mc)
  end.

(** [x > 0.005] and [x < -0.005] on the exact value of [x]: the
    finite float [m * 2^e] is above [1/200] when [200 * m * 2^e > 1]
    (no float is [1/200] itself). *)
Definition above_0_005 (x : float) : bool :=
  match x with
  | S754_infinity s => negb s
  | S754_finite false m e => pow2p (- e) <? 200 * Zpos m * pow2p e
  | _ => false
  end.

Definition below_minus_0_005 (x : float) : bool :=
  match x with
  | S754_infinity s => s
  | S754_finite true m e => pow2p (- e) <? 200 * Zpos m * pow2p e
  | _ => false
  end.

End Order.

(** ** The keys of a response *)

Module Shape.
Import PyStr Json App.

Definition keys (r : response) : list pystr :=
  match fst r with
  | JDict d => map fst d
  | _ => []
  end.

(** The keys of the dictionary [response] of both handlers.  The
    order of this list means nothing: [jsonify] writes the members of
    the object in an order of its own (sorted by key, by default). *)
Definition analysis_keys : list pystr :=
  [lit "title"; lit "author"; lit "summary"; lit "sentiment";
   lit "polarity"; lit "bias"; lit "credibility"; lit "word_count";
   lit "reading_time"].

(** A response is an analysis with status 200 and these nine keys,
    each once and in any order, or an error with status 400 or 500
    and the single key [error]. *)
Definition well_shaped (r : response) : Prop :=
  (status r = 200%Z /\ Permutation (keys r) analysis_keys)
  \/ ((status r = 400%Z \/ status r = 500%Z) /\ keys r = [lit "error"]).

(** The keys that both handlers compute from the text alone. *)
Definition derived_keys : list string :=
  ["sentiment"; "polarity"; "bias"; "credibility"; "word_count";
   "reading_time"]%string.

End Shape.

(** ** Sample requests *)

Module Sample.
Import PyStr Exc PyFloat Json App.
Local Open Scope Z_scope.

Definition good_news : pystr := lit "Good news today.".

Definition article : Article.t :=
  {| Article.title := lit "Harvest";
     Article.authors := [lit "A. Reporter"; lit "B. Editor"];
     Article.text := good_news;
     Article.summary := [] |}.

Definition score : TextBlob.t :=
  {| TextBlob.polarity := int_truediv 7 10;
     TextBlob.subjectivity := int_truediv 6 10 |}.

(** A score just above zero: 0.004. *)
Definition faint : TextBlob.t :=
  {| TextBlob.polarity := int_truediv 4 1000;
     TextBlob.subjectivity := int_truediv 6 10 |}.

(** A request that both handlers answer with 200. *)
Definition world : World :=
  {| get_json :=
       Return (JDict [(lit "url", JStr (lit "https://example.org/a"))]);
     fetch_article := fun _ => Return article;
     text_blob := fun _ => Return score;
     sample_file := Some (Return good_news) |}.

Definition with_body (body : outcome json) : World :=
  {| get_json := body;
     fetch_article := fetch_article world;
     text_blob := text_blob world;
     sample_file := sample_file world |}.

Definition with_article (a : outcome Article.t) : World :=
  {| get_json := get_json world;
     fetch_article := fun _ => a;
     text_blob := text_blob world;
     sample_file := sample_file world |}.

Definition with_file (f : option (outcome pystr)) : World :=
  {| get_json := get_json world;
     fetch_article := fetch_article world;
     text_blob := text_blob world;
     sample_file := f |}.

Definition with_score (a : outcome TextBlob.t) : World :=
  {| get_json := get_json world;
     fetch_article := fetch_article world;
     text_blob := fun _ => a;
     sample_file := sample_file world |}.

(** A body that is not JSON: the message of werkzeug's BadRequest. *)
Definition bad_request : pystr :=
  lit "400 Bad Request: The browser (or proxy) sent a request that "
  ++ lit "this server could not understand.".

(** A text of 301 characters. *)
Definition long_text : pystr := lit "word " ++ repeat 120%N 296.

End Sample.

(** * Properties *)

(** ** Rounding: fractions, binades and the nearest float *)

Import PyStr Exc PyFloat Json App Run.
Local Open Scope Z_scope.

(** Signs of products of powers *)
Ltac prod_sign :=
  repeat first [ apply Z.mul_pos_pos | apply Z.mul_nonneg_nonneg ]; lia.

(** Two responses that differ in their status or in their message *)
Ltac clash H :=
  cbv [error_response status snd] in H; cbv in H; discriminate H.

Section Fractions.

Lemma round_half_even_bounds n d :
  0 < d ->
  2 * n - d <= 2 * d * round_half_even n d <= 2 * n + d.
Proof.
  intros Hd. unfold round_half_even.
  pose proof (Z.div_mod n d ltac:(lia)) as E.
  pose proof (Z.mod_pos_bound n d Hd) as B.
  destruct (Z.compare_spec (2 * (n mod d)) d) as [H|H|H];
    [destruct (Z.even (n / d))| |]; nia.
Qed.

Lemma round_half_even_tie_up n d :
  0 < d -> 2 * d * round_half_even n d = 2 * n + d ->
  Z.even (round_half_even n d) = true.
Proof.
  intros Hd. unfold round_half_even.
  pose proof (Z.div_mod n d ltac:(lia)) as E.
  pose proof (Z.mod_pos_bound n d Hd) as B.
  destruct (Z.compare_spec (2 * (n mod d)) d) as [H|H|H].
  - destruct (Z.even (n / d)) eqn:Ev; intros K.
    + nia.
    + rewrite Z.even_add, Ev. reflexivity.
  - intros K. nia.
  - intros K. nia.
Qed.

Lemma round_half_even_tie_down n d :
  0 < d -> 2 * d * round_half_even n d = 2 * n - d ->
  Z.even (round_half_even n d) = true.
Proof.
  intros Hd. unfold round_half_even.
  pose proof (Z.div_mod n d ltac:(lia)) as E.
  pose proof (Z.mod_pos_bound n d Hd) as B.
  destruct (Z.compare_spec (2 * (n mod d)) d) as [H|H|H].
  - destruct (Z.even (n / d)) eqn:Ev; intros K.
    + exact Ev.
    + nia.
  - intros K. nia.
  - intros K. nia.
Qed.

Lemma round_half_even_mono n1 d1 n2 d2 :
  0 < d1 -> 0 < d2 -> n1 * d2 <= n2 * d1 ->
  round_half_even n1 d1 <= round_half_even n2 d2.
Proof.
  intros H1 H2 L.
  pose proof (round_half_even_bounds n1 d1 H1) as B1.
  pose proof (round_half_even_bounds n2 d2 H2) as B2.
  pose proof (round_half_even_tie_up n1 d1 H1) as T1.
  pose proof (round_half_even_tie_down n2 d2 H2) as T2.
  set (r1 := round_half_even n1 d1) in *.
  set (r2 := round_half_even n2 d2) in *.
  clearbody r1 r2.
  destruct (Z_le_gt_dec r1 r2) as [|G]; [assumption|exfalso].
  assert (P : 0 < d1 * d2) by (apply Z.mul_pos_pos; assumption).
  assert (A1 : (2 * r1 - 1) * (d1 * d2) <= 2 * (n1 * d2)).
  { assert (2 * d1 * r1 * d2 <= (2 * n1 + d1) * d2)
      by (apply Z.mul_le_mono_nonneg_r; lia).
    lia. }
  assert (A2 : 2 * (n2 * d1) <= (2 * r2 + 1) * (d1 * d2)).
  { assert ((2 * n2 - d2) * d1 <= 2 * d2 * r2 * d1)
      by (apply Z.mul_le_mono_nonneg_r; lia).
    lia. }
  assert (M : (2 * r2 + 2 - 1) * (d1 * d2) <= (2 * r1 - 1) * (d1 * d2))
    by (apply Z.mul_le_mono_nonneg_r; lia).
  assert (R : r1 = r2 + 1).
  { assert ((2 * r1 - 1) * (d1 * d2) <= (2 * r2 + 1) * (d1 * d2)) by lia.
    apply Z.mul_le_mono_pos_r in H; lia. }
  subst r1.
  assert (E1 : 2 * d1 * (r2 + 1) = 2 * n1 + d1).
  { assert ((2 * d1 * (r2 + 1)) * d2 = (2 * n1 + d1) * d2) by lia.
    apply Z.mul_cancel_r in H; lia. }
  assert (E2 : 2 * d2 * r2 = 2 * n2 - d2).
  { assert ((2 * d2 * r2) * d1 = (2 * n2 - d2) * d1) by lia.
    apply Z.mul_cancel_r in H; lia. }
  specialize (T1 E1). specialize (T2 E2).
  rewrite Z.even_add, T2 in T1. discriminate.
Qed.


Lemma pow2p_pos e : 0 < pow2p e.
Proof. unfold pow2p. apply Z.pow_pos_nonneg; lia. Qed.

Lemma pow2p_ratio e1 e2 :
  e1 <= e2 ->
  pow2p e2 * pow2p (- e1) = pow2p e1 * pow2p (- e2) * 2 ^ (e2 - e1).
Proof.
  intros L. unfold pow2p.
  rewrite <- !Z.pow_add_r by lia. f_equal. lia.
Qed.

Lemma shift_frac_eq n d e :
  shift_frac n d e = (n * pow2p e, d * pow2p (- e)).
Proof. reflexivity. Qed.

Lemma shift_frac_ratio n d e1 e2 :
  e1 <= e2 ->
  fst (shift_frac n d e2) * snd (shift_frac n d e1)
  = fst (shift_frac n d e1) * snd (shift_frac n d e2) * 2 ^ (e2 - e1).
Proof.
  intros L. rewrite !shift_frac_eq. cbn [fst snd].
  pose proof (pow2p_ratio e1 e2 L) as R.
  transitivity (n * d * (pow2p e2 * pow2p (- e1))); [ring|].
  rewrite R. ring.
Qed.

Lemma shift_frac_pos n d e :
  0 < n -> 0 < d -> 0 < fst (shift_frac n d e) /\ 0 < snd (shift_frac n d e).
Proof.
  intros Hn Hd. rewrite shift_frac_eq. cbn [fst snd].
  pose proof (pow2p_pos e). pose proof (pow2p_pos (- e)).
  split; apply Z.mul_pos_pos; assumption.
Qed.

(** [floor_log2_ratio a b] is the binade of [a/b]:
    [2^k <= a/b < 2^(k+1)]. *)
Lemma floor_log2_ratio_spec a b :
  0 < a -> 0 < b ->
  let f := shift_frac a b (- floor_log2_ratio a b) in
  snd f <= fst f < 2 * snd f.
Proof.
  intros Ha Hb. unfold floor_log2_ratio.
  set (k := Z.log2 a - Z.log2 b).
  destruct (shift_frac a b (- k)) as [n d] eqn:E.
  assert (B : d < 2 * n /\ n < 2 * d).
  { rewrite shift_frac_eq in E. injection E as <- <-.
    pose proof (Z.log2_spec a Ha) as [La Ua].
    pose proof (Z.log2_spec b Hb) as [Lb Ub].
    pose proof (Z.log2_nonneg a). pose proof (Z.log2_nonneg b).
    unfold pow2p. rewrite Z.opp_involutive. subst k.
    set (la := Z.log2 a) in *. set (lb := Z.log2 b) in *.
    clearbody la lb.
    set (M := 2 ^ Z.max la lb).
    assert (HM : 0 < M) by (apply Z.pow_pos_nonneg; lia).
    assert (A1 : M <= a * 2 ^ Z.max 0 (- (la - lb))).
    { replace M with (2 ^ la * 2 ^ Z.max 0 (- (la - lb)))
        by (unfold M; rewrite <- Z.pow_add_r by lia; f_equal; lia).
      apply Z.mul_le_mono_nonneg_r; [apply Z.pow_nonneg|]; lia. }
    assert (A2 : a * 2 ^ Z.max 0 (- (la - lb)) < 2 * M).
    { replace (2 * M) with (2 ^ Z.succ la * 2 ^ Z.max 0 (- (la - lb)))
        by (unfold M; rewrite <- Z.pow_add_r by lia;
            rewrite <- (Z.pow_succ_r 2 (Z.max la lb)) by lia; f_equal; lia).
      apply Z.mul_lt_mono_pos_r; [apply Z.pow_pos_nonneg|]; lia. }
    assert (B1 : M <= b * 2 ^ Z.max 0 (la - lb)).
    { replace M with (2 ^ lb * 2 ^ Z.max 0 (la - lb))
        by (unfold M; rewrite <- Z.pow_add_r by lia; f_equal; lia).
      apply Z.mul_le_mono_nonneg_r; [apply Z.pow_nonneg|]; lia. }
    assert (B2 : b * 2 ^ Z.max 0 (la - lb) < 2 * M).
    { replace (2 * M) with (2 ^ Z.succ lb * 2 ^ Z.max 0 (la - lb))
        by (unfold M; rewrite <- Z.pow_add_r by lia;
            rewrite <- (Z.pow_succ_r 2 (Z.max la lb)) by lia; f_equal; lia).
      apply Z.mul_lt_mono_pos_r; [apply Z.pow_pos_nonneg|]; lia. }
    lia. }
  destruct (Z.ltb_spec n d) as [Lt|Ge].
  - pose proof (shift_frac_ratio a b (- k) (- (k - 1)) ltac:(lia)) as R.
    rewrite E in R. cbn [fst snd] in R.
    replace (- (k - 1) - - k) with 1 in R by lia.
    change (2 ^ 1) with 2 in R.
    pose proof (shift_frac_pos a b (- (k - 1)) Ha Hb) as [Pn Pd].
    cbv zeta.
    set (n' := fst (shift_frac a b (- (k - 1)))) in *.
    set (d' := snd (shift_frac a b (- (k - 1)))) in *.
    clearbody n' d'. split.
    + assert (d' * d <= n' * d) by nia.
      apply Z.mul_le_mono_pos_r in H; lia.
    + assert (n' * d < 2 * d' * d) by nia.
      apply Z.mul_lt_mono_pos_r in H; lia.
  - cbv zeta. rewrite E. cbn [fst snd]. lia.
Qed.

End Fractions.

Section Nearest.

(** The significand chosen by [nearest53] has 53 bits, or is [2^53]. *)
Lemma nearest53_significand a b :
  0 < a -> 0 < b ->
  2 ^ 52 <= fst (nearest53 a b) <= 2 ^ 53.
Proof.
  intros Ha Hb. unfold nearest53. cbn [fst].
  pose proof (floor_log2_ratio_spec a b Ha Hb) as S. cbv zeta in S.
  set (k := floor_log2_ratio a b) in *. clearbody k.
  pose proof (shift_frac_ratio a b (- k) (- (k - 52)) ltac:(lia)) as R.
  replace (- (k - 52) - - k) with 52 in R by lia.
  pose proof (shift_frac_pos a b (- k) Ha Hb) as [Pn Pd].
  pose proof (shift_frac_pos a b (- (k - 52)) Ha Hb) as [Pn' Pd'].
  set (n := fst (shift_frac a b (- k))) in *.
  set (d := snd (shift_frac a b (- k))) in *.
  unfold round_frac.
  set (n' := fst (shift_frac a b (- (k - 52)))) in *.
  set (d' := snd (shift_frac a b (- (k - 52)))) in *.
  clearbody n d n' d'.
  assert (L : 2 ^ 52 * d' <= n').
  { assert (2 ^ 52 * d' * d <= n' * d) by nia.
    apply Z.mul_le_mono_pos_r in H; lia. }
  assert (U : n' < 2 ^ 53 * d').
  { assert (n' * d < 2 ^ 53 * d' * d) by nia.
    apply Z.mul_lt_mono_pos_r in H; lia. }
  split.
  - change (2 ^ 52) with (round_half_even (2 ^ 52) 1) at 1.
    apply round_half_even_mono; lia.
  - change (2 ^ 53) with (round_half_even (2 ^ 53) 1) at 1.
    apply round_half_even_mono; lia.
Qed.

(** [nearest53] is within half a unit in the last place of [a/b]. *)
Lemma nearest53_half_ulp a b :
  0 < a -> 0 < b ->
  let m := fst (nearest53 a b) in
  let f := shift_frac a b (- snd (nearest53 a b)) in
  2 * fst f - snd f <= 2 * snd f * m <= 2 * fst f + snd f.
Proof.
  intros Ha Hb. cbv zeta. unfold nearest53. cbn [fst snd]. unfold round_frac.
  apply round_half_even_bounds.
  apply (shift_frac_pos a b _ Ha Hb).
Qed.

Lemma floor_log2_ratio_mono a1 a2 b :
  0 < a1 -> a1 <= a2 -> 0 < b ->
  floor_log2_ratio a1 b <= floor_log2_ratio a2 b.
Proof.
  intros H1 L Hb.
  pose proof (floor_log2_ratio_spec a1 b H1 Hb) as S1.
  pose proof (floor_log2_ratio_spec a2 b ltac:(lia) Hb) as S2.
  cbv zeta in S1, S2.
  set (k1 := floor_log2_ratio a1 b) in *.
  set (k2 := floor_log2_ratio a2 b) in *. clearbody k1 k2.
  rewrite !shift_frac_eq in S1, S2. cbn [fst snd] in S1, S2.
  rewrite !Z.opp_involutive in S1, S2.
  destruct (Z_le_gt_dec k1 k2) as [|G]; [assumption|exfalso].
  pose proof (pow2p_ratio k2 k1 ltac:(lia)) as R.
  assert (T : 2 <= 2 ^ (k1 - k2)).
  { change 2 with (2 ^ 1) at 1. apply Z.pow_le_mono_r; lia. }
  pose proof (pow2p_pos k1). pose proof (pow2p_pos k2).
  pose proof (pow2p_pos (- k1)). pose proof (pow2p_pos (- k2)).
  set (P1 := pow2p k1) in *. set (P2 := pow2p k2) in *.
  set (Q1 := pow2p (- k1)) in *. set (Q2 := pow2p (- k2)) in *.
  set (T2 := 2 ^ (k1 - k2)) in *. clearbody P1 P2 Q1 Q2 T2.
  assert (X1 : b * P1 * Q2 <= a1 * Q1 * Q2)
    by (apply Z.mul_le_mono_nonneg_r; lia).
  assert (X2 : a2 * Q2 * Q1 < 2 * (b * P2) * Q1)
    by (apply Z.mul_lt_mono_pos_r; lia).
  assert (X3 : a1 * (Q1 * Q2) <= a2 * (Q1 * Q2))
    by (apply Z.mul_le_mono_nonneg_r; nia).
  assert (X4 : 2 * (b * (P2 * Q1)) <= (b * (P2 * Q1)) * T2)
    by nia.
  nia.
Qed.

Lemma round_of_parts_normalise me :
  round_of_parts (normalise53 me) = round_of_parts me.
Proof.
  destruct me as [m e]. unfold normalise53.
  destruct (Z.eqb_spec m (2 ^ 53)) as [->|]; [|reflexivity].
  unfold round_of_parts, round_frac. cbn [fst snd].
  rewrite !shift_frac_eq. cbn [fst snd].
  pose proof (pow2p_ratio e (e + 1) ltac:(lia)) as R.
  replace (e + 1 - e) with 1 in R by lia. change (2 ^ 1) with 2 in R.
  pose proof (pow2p_pos (- e)). pose proof (pow2p_pos (- (e + 1))).
  apply Z.le_antisymm; apply round_half_even_mono; try lia;
    change (2 ^ 53) with (2 ^ 52 * 2); nia.
Qed.

Lemma round_of_parts_nearest53_mono a1 a2 b :
  0 < a1 -> a1 <= a2 -> 0 < b ->
  round_of_parts (nearest53 a1 b) <= round_of_parts (nearest53 a2 b).
Proof.
  intros H1 L Hb.
  pose proof (nearest53_significand a1 b H1 Hb) as S1.
  pose proof (nearest53_significand a2 b ltac:(lia) Hb) as S2.
  pose proof (floor_log2_ratio_mono a1 a2 b H1 L Hb) as K.
  unfold round_of_parts, round_frac.
  assert (M : floor_log2_ratio a1 b = floor_log2_ratio a2 b ->
              fst (nearest53 a1 b) <= fst (nearest53 a2 b)).
  { intros E. unfold nearest53, round_frac. cbn [fst]. rewrite E.
    rewrite !shift_frac_eq. cbn [fst snd].
    pose proof (pow2p_pos (- (floor_log2_ratio a2 b - 52))).
    pose proof (pow2p_pos (- - (floor_log2_ratio a2 b - 52))).
    apply round_half_even_mono; try (apply Z.mul_pos_pos; lia).
    set (P := pow2p (- (floor_log2_ratio a2 b - 52))) in *.
    set (Q := pow2p (- - (floor_log2_ratio a2 b - 52))) in *.
    clearbody P Q.
    assert (a1 * (P * (b * Q)) <= a2 * (P * (b * Q)))
      by (apply Z.mul_le_mono_nonneg_r; [prod_sign|lia]).
    lia. }
  assert (E1 : snd (nearest53 a1 b) = floor_log2_ratio a1 b - 52)
    by reflexivity.
  assert (E2 : snd (nearest53 a2 b) = floor_log2_ratio a2 b - 52)
    by reflexivity.
  destruct (nearest53 a1 b) as [m1 e1].
  destruct (nearest53 a2 b) as [m2 e2].
  cbn [fst snd] in *.
  set (k1 := floor_log2_ratio a1 b) in *.
  set (k2 := floor_log2_ratio a2 b) in *.
  clearbody k1 k2. subst e1 e2.
  rewrite !shift_frac_eq. cbn [fst snd]. rewrite !Z.mul_1_l.
  pose proof (pow2p_pos (- (k1 - 52))). pose proof (pow2p_pos (- (k2 - 52))).
  pose proof (pow2p_pos (k1 - 52)). pose proof (pow2p_pos (k2 - 52)).
  apply round_half_even_mono; try assumption.
  destruct (Z.eq_dec k1 k2) as [E|N].
  - subst k2. specialize (M eq_refl).
    apply Z.mul_le_mono_nonneg_r; [lia|].
    apply Z.mul_le_mono_nonneg_r; lia.
  - pose proof (pow2p_ratio (k1 - 52) (k2 - 52) ltac:(lia)) as R.
    assert (T : 2 <= 2 ^ (k2 - 52 - (k1 - 52))).
    { change 2 with (2 ^ 1) at 1. apply Z.pow_le_mono_r; lia. }
    set (P1 := pow2p (k1 - 52)) in *. set (P2 := pow2p (k2 - 52)) in *.
    set (Q1 := pow2p (- (k1 - 52))) in *.
    set (Q2 := pow2p (- (k2 - 52))) in *.
    set (T2 := 2 ^ (k2 - 52 - (k1 - 52))) in *.
    clearbody P1 P2 Q1 Q2 T2.
    rewrite <- !Z.mul_assoc, R.
    assert (PQ : 0 <= P1 * Q2) by prod_sign.
    assert (m1 <= m2 * T2).
    { change (2 ^ 53) with (2 ^ 52 * 2) in S1.
      assert (2 ^ 52 * 2 <= m2 * T2) by (apply Z.mul_le_mono_nonneg; lia).
      lia. }
    replace (m2 * (P1 * Q2 * T2)) with (m2 * T2 * (P1 * Q2)) by ring.
    apply Z.mul_le_mono_nonneg_r; lia.
Qed.

End Nearest.

Section ReadingMinutes.

Lemma normalise53_significand a b :
  0 < a -> 0 < b ->
  2 ^ 52 <= fst (normalise53 (nearest53 a b)) < 2 ^ 53.
Proof.
  intros Ha Hb. pose proof (nearest53_significand a b Ha Hb) as S.
  destruct (nearest53 a b) as [m e]. cbn [fst] in S. unfold normalise53.
  destruct (Z.eqb_spec m (2 ^ 53)); cbn [fst]; lia.
Qed.

Lemma py_round_float_of_ratio a b :
  0 < a -> 0 < b ->
  py_round (float_of_ratio false a b)
  = Return (round_of_parts (nearest53 a b)).
Proof.
  intros Ha Hb. unfold float_of_ratio.
  destruct (Z.eqb_spec a 0) as [|_]; [lia|].
  pose proof (normalise53_significand a b Ha Hb) as S.
  rewrite <- (round_of_parts_normalise (nearest53 a b)).
  destruct (normalise53 (nearest53 a b)) as [m e]. cbn [fst] in S.
  cbn [py_round]. rewrite Z2Pos.id by lia. reflexivity.
Qed.

Lemma round_of_parts_nonneg m e : 0 <= m -> 0 <= round_of_parts (m, e).
Proof.
  intros Hm. unfold round_of_parts, round_frac, shift_frac. cbn [fst snd].
  pose proof (pow2p_pos e). pose proof (pow2p_pos (- e)).
  change 0 with (round_half_even 0 1) at 1.
  apply round_half_even_mono; try lia.
Qed.

Lemma reading_minutes_zero : reading_minutes 0 = Return 0.
Proof. reflexivity. Qed.

Lemma reading_minutes_pos w :
  0 < w -> reading_minutes w = Return (round_of_parts (nearest53 w 200)).
Proof.
  intros Hw. unfold reading_minutes, int_truediv.
  destruct (Z.ltb_spec w 0) as [|_]; [lia|].
  rewrite Z.abs_eq by lia. apply py_round_float_of_ratio; lia.
Qed.

(** [round(word_count / 200)] raises nothing and is not negative. *)
Lemma reading_minutes_returns w :
  0 <= w -> exists n, reading_minutes w = Return n /\ 0 <= n.
Proof.
  intros Hw. destruct (Z.eq_dec w 0) as [->|N].
  - exists 0. split; [apply reading_minutes_zero | lia].
  - exists (round_of_parts (nearest53 w 200)). split.
    + apply reading_minutes_pos. lia.
    + pose proof (nearest53_significand w 200 ltac:(lia) ltac:(lia)) as S.
      destruct (nearest53 w 200) as [m e]. cbn [fst] in S.
      apply round_of_parts_nonneg. lia.
Qed.

Lemma reading_minutes_mono w1 w2 n1 n2 :
  0 <= w1 -> w1 <= w2 ->
  reading_minutes w1 = Return n1 -> reading_minutes w2 = Return n2 ->
  n1 <= n2.
Proof.
  intros H1 L E1 E2.
  destruct (Z.eq_dec w1 0) as [->|N1].
  - rewrite reading_minutes_zero in E1. injection E1 as <-.
    destruct (reading_minutes_returns w2 L) as (n & E & Hn).
    rewrite E in E2. injection E2 as <-. exact Hn.
  - rewrite reading_minutes_pos in E1, E2 by lia.
    injection E1 as <-. injection E2 as <-.
    apply round_of_parts_nearest53_mono; lia.
Qed.

Lemma reading_time_eq w n :
  reading_minutes w = Return n ->
  reading_time w = Return (of_int n ++ lit " min read").
Proof. intros E. unfold reading_time. rewrite E. reflexivity. Qed.

End ReadingMinutes.

(** ** Below [200 * 2^46] words the minutes are the exact rounding *)

Section ExactMinutes.

Lemma round_half_even_unique n d k :
  0 < d -> 2 * n - d < 2 * d * k < 2 * n + d -> round_half_even n d = k.
Proof.
  intros Hd [L U]. pose proof (round_half_even_bounds n d Hd) as [L' U'].
  set (r := round_half_even n d) in *. clearbody r.
  assert (A : 2 * d * (r - k) < 2 * d * 1) by lia.
  assert (B : 2 * d * (-1) < 2 * d * (r - k)) by lia.
  apply Z.mul_lt_mono_pos_l in A; [|lia].
  apply Z.mul_lt_mono_pos_l in B; [|lia]. lia.
Qed.

Lemma round_half_even_tie n d j :
  0 < d -> 2 * n = 2 * d * j + d ->
  round_half_even n d = if Z.even j then j else j + 1.
Proof.
  intros Hd E. unfold round_half_even.
  assert (Q : n / d = j)
    by (symmetry; apply (Z.div_unique n d j (n - d * j)); lia).
  assert (R : n mod d = n - d * j)
    by (symmetry; apply (Z.mod_unique n d j (n - d * j)); lia).
  rewrite Q, R.
  replace (2 * (n - d * j)) with d by lia. rewrite Z.compare_refl.
  reflexivity.
Qed.

(** Rounding [w/200] to a multiple of [1/t] first changes nothing
    when [t] is even and above 100. *)
Lemma round_half_even_twice w t :
  0 < t -> 100 < 2 * t ->
  round_half_even (round_half_even (w * (2 * t)) 200) (2 * t)
  = round_half_even w 200.
Proof.
  intros Ht Big.
  destruct (Z.eq_dec (w mod 200) 100) as [Tie|NoTie].
  - pose proof (Z.div_mod w 200 ltac:(lia)) as D.
    set (j := w / 200) in *. clearbody j.
    assert (M : round_half_even (w * (2 * t)) 200 = (2 * j + 1) * t).
    { apply round_half_even_unique; lia. }
    rewrite M.
    rewrite (round_half_even_tie ((2 * j + 1) * t) (2 * t) j) by lia.
    rewrite (round_half_even_tie w 200 j) by lia. reflexivity.
  - pose proof (round_half_even_bounds w 200 ltac:(lia)) as [L U].
    pose proof (round_half_even_bounds (w * (2 * t)) 200 ltac:(lia))
      as [L' U'].
    set (r := round_half_even w 200) in *.
    set (m := round_half_even (w * (2 * t)) 200) in *.
    assert (S : -99 <= w - 200 * r <= 99).
    { assert (w - 200 * r <> 100 /\ w - 200 * r <> -100); [|lia].
      split; intros X; apply NoTie.
      - replace w with (100 + r * 200) by lia.
        rewrite Z.mod_add by lia. reflexivity.
      - replace w with (100 + (r - 1) * 200) by lia.
        rewrite Z.mod_add by lia. reflexivity. }
    clearbody r m.
    apply round_half_even_unique; [lia|]. nia.
Qed.

(** Below [200 * 2^46] words the float quotient is exact enough:
    [round(word_count / 200)] is the integer nearest to the rational
    [word_count / 200], ties to even. *)
Lemma reading_minutes_exact w :
  0 <= w < 200 * 2 ^ 46 ->
  reading_minutes w = Return (round_half_even w 200).
Proof.
  intros [L U]. destruct (Z.eq_dec w 0) as [->|N]; [reflexivity|].
  rewrite reading_minutes_pos by lia. f_equal.
  pose proof (floor_log2_ratio_spec w 200 ltac:(lia) ltac:(lia)) as [S _].
  unfold round_of_parts, nearest53, round_frac, shift_frac in *.
  cbn [fst snd] in *.
  set (k := floor_log2_ratio w 200) in *. clearbody k.
  rewrite Z.opp_involutive in S.
  assert (K : k <= 45).
  { destruct (Z_le_gt_dec k 45) as [|G]; [assumption|exfalso].
    assert (P : 2 ^ 46 <= pow2p k)
      by (unfold pow2p; apply Z.pow_le_mono_r; lia).
    assert (Q : pow2p (- k) = 1)
      by (unfold pow2p; rewrite Z.max_l by lia; reflexivity).
    rewrite Q in S. lia. }
  assert (P1 : pow2p (k - 52) = 1)
    by (unfold pow2p; rewrite Z.max_l by lia; reflexivity).
  assert (P2 : pow2p (- - (k - 52)) = 1)
    by (unfold pow2p; rewrite Z.max_l by lia; reflexivity).
  assert (P3 : pow2p (- (k - 52)) = 2 * 2 ^ (51 - k)).
  { unfold pow2p. rewrite Z.max_r by lia.
    rewrite <- (Z.pow_succ_r 2 (51 - k)) by lia. f_equal. lia. }
  rewrite P1, P2, P3, !Z.mul_1_r, Z.mul_1_l.
  apply round_half_even_twice.
  - apply Z.pow_pos_nonneg; lia.
  - assert (2 ^ 6 <= 2 ^ (51 - k)) by (apply Z.pow_le_mono_r; lia).
    change (2 ^ 6) with 64 in *. lia.
Qed.

End ExactMinutes.

(** ** The quotients are binary64 values *)

Section Binary64.

Lemma digits2_pos_log2 m : Zpos (digits2_pos m) = Z.log2 (Zpos m) + 1.
Proof.
  assert (S : forall p, digits2_pos p = Pos.size p)
    by (induction p; cbn; congruence).
  rewrite S. destruct m; cbn; lia.
Qed.

Lemma floor_log2_ratio_bounds a b :
  Z.log2 a - Z.log2 b - 1 <= floor_log2_ratio a b <= Z.log2 a - Z.log2 b.
Proof.
  unfold floor_log2_ratio.
  destruct (shift_frac a b (- (Z.log2 a - Z.log2 b))) as [n d].
  destruct (n <? d); lia.
Qed.

(** In the exponent range of binary64 the quotient is a binary64
    value: its significand has 53 bits and its exponent is in range. *)
Lemma float_of_ratio_valid s a b :
  0 < a -> 0 < b -> -1021 <= Z.log2 a - Z.log2 b <= 1022 ->
  valid_binary 53 1024 (float_of_ratio s a b) = true.
Proof.
  intros Ha Hb R. unfold float_of_ratio.
  destruct (Z.eqb_spec a 0) as [|_]; [lia|].
  pose proof (normalise53_significand a b Ha Hb) as S.
  pose proof (floor_log2_ratio_bounds a b) as K.
  assert (E : snd (normalise53 (nearest53 a b)) = floor_log2_ratio a b - 52
              \/ snd (normalise53 (nearest53 a b))
                 = floor_log2_ratio a b - 52 + 1).
  { unfold nearest53, normalise53.
    destruct (_ =? 2 ^ 53); cbn [snd]; auto. }
  destruct (normalise53 (nearest53 a b)) as [m e]. cbn [fst snd] in S, E.
  destruct m as [|m|m]; try (exfalso; cbn in S; lia).
  cbn [Z.to_pos valid_binary].
  unfold bounded, canonical_mantissa, fexp, emin.
  rewrite digits2_pos_log2.
  rewrite (Z.log2_unique (Zpos m) 52) by lia.
  apply andb_true_intro. split; [apply Z.eqb_eq | apply Z.leb_le]; lia.
Qed.

(** [word_count / 200] is a binary64 value for every length a Python
    list can have (and far beyond). *)
Lemma int_truediv_200_valid w :
  0 <= w < 2 ^ 1029 -> valid_binary 53 1024 (int_truediv w 200) = true.
Proof.
  intros [L U]. unfold int_truediv.
  destruct (Z.eq_dec w 0) as [->|N]; [reflexivity|].
  rewrite Z.abs_eq by lia.
  apply float_of_ratio_valid; try lia.
  change (Z.log2 200) with 7.
  pose proof (Z.log2_nonneg w).
  assert (Z.log2 w < 1029) by (apply Z.log2_lt_pow2; lia).
  lia.
Qed.

(** [round(x, 2)] is a binary64 value for every float below [2^1000]
    in magnitude (a polarity is at most 1). *)
Lemma py_round2_valid x :
  valid_binary 53 1024 x = true ->
  (forall s m e, x = S754_finite s m e -> Zpos m < 2 ^ 53 /\ e <= 947) ->
  valid_binary 53 1024 (py_round2 x) = true.
Proof.
  intros V B. destruct x as [z|i| |s m e]; try exact V.
  destruct (B s m e eq_refl) as [Bm Be]. unfold py_round2.
  set (n := round_of_parts (Zpos m * 100, e)).
  assert (N0 : 0 <= n) by (apply round_of_parts_nonneg; lia).
  destruct (Z.eq_dec n 0) as [Z|NZ].
  - rewrite Z. reflexivity.
  - assert (U : n < 2 ^ 1008).
    { unfold n, round_of_parts, round_frac, shift_frac. cbn [fst snd].
      pose proof (pow2p_pos e) as Pe. pose proof (pow2p_pos (- e)) as Qe.
      pose proof (round_half_even_bounds
                    (Zpos m * 100 * pow2p e) (1 * pow2p (- e))
                    ltac:(lia)) as [_ Up].
      set (r := round_half_even _ _) in *. clearbody r.
      assert (P : pow2p e <= 2 ^ 947).
      { unfold pow2p. apply Z.pow_le_mono_r; lia. }
      assert (M : Zpos m * 100 * pow2p e <= 2 ^ 53 * 100 * 2 ^ 947).
      { apply Z.mul_le_mono_nonneg; try lia. }
      assert (R : r <= Zpos m * 100 * pow2p e + 1) by nia.
      assert (2 ^ 53 * 100 * 2 ^ 947 + 1 < 2 ^ 1008)
        by (apply Z.ltb_lt; vm_compute; reflexivity).
      lia. }
    apply float_of_ratio_valid; try lia.
    change (Z.log2 100) with 6.
    pose proof (Z.log2_nonneg n).
    assert (Z.log2 n < 1008) by (apply Z.log2_lt_pow2; lia).
    lia.
Qed.

End Binary64.

(** ** Comparisons of floats *)

Section FloatOrder.

Lemma SFcompare_antisym x y :
  SFcompare y x = option_map CompOpp (SFcompare x y).
Proof.
  destruct x as [sx|sx| |sx mx ex], y as [sy|sy| |sy my ey]; cbn;
    try reflexivity;
    try (destruct sx; reflexivity); try (destruct sy; reflexivity);
    try (destruct sx, sy; reflexivity).
  pose proof (Pos.compare_cont_antisym mx my Eq) as A. cbn in A.
  destruct sx, sy; cbn; try reflexivity;
    rewrite (Z.compare_antisym ex ey);
    destruct (ex ?= ey); cbn; try reflexivity;
    rewrite <- A; destruct (Pos.compare_cont Eq mx my); reflexivity.
Qed.

Lemma SFcompare_some x y :
  is_nan x = false -> is_nan y = false ->
  exists c, SFcompare x y = Some c.
Proof.
  destruct x, y; cbn; intros; try discriminate; eauto.
Qed.

Lemma ltb_antisym x y : ltb x y = true -> ltb y x = false.
Proof.
  unfold ltb, SFltb. rewrite (SFcompare_antisym x y).
  destruct (SFcompare x y) as [[]|]; cbn; congruence.
Qed.

Lemma ltb_false_iff_leb x y :
  is_nan x = false -> is_nan y = false ->
  ltb x y = false <-> leb y x = true.
Proof.
  intros Hx Hy. unfold ltb, leb, SFltb, SFleb.
  rewrite (SFcompare_antisym x y).
  destruct (SFcompare_some x y Hx Hy) as [c ->].
  destruct c; cbn; split; congruence.
Qed.

Lemma eqb_iff_not_ltb x y :
  is_nan x = false -> is_nan y = false ->
  eqb x y = true <-> ltb y x = false /\ ltb x y = false.
Proof.
  intros Hx Hy. unfold eqb, ltb, SFeqb, SFltb.
  rewrite (SFcompare_antisym x y).
  destruct (SFcompare_some x y Hx Hy) as [c ->].
  destruct c; cbn; split; intros H; try (split; reflexivity);
    try reflexivity; try discriminate; destruct H; discriminate.
Qed.

Lemma leb_not_nan_r x y : leb x y = true -> is_nan y = false.
Proof. destruct x, y; cbn; congruence. Qed.

Lemma leb_not_nan_l x y : leb x y = true -> is_nan x = false.
Proof. destruct x, y; cbn; congruence. Qed.

(** The literals, as binary64 values *)
Lemma lit_0_3_eq : lit_0_3 = S754_finite false 5404319552844595 (-54).
Proof. vm_compute. reflexivity. Qed.

Lemma lit_0_5_eq : lit_0_5 = S754_finite false 4503599627370496 (-53).
Proof. vm_compute. reflexivity. Qed.

Lemma lit_0_7_eq : lit_0_7 = S754_finite false 6305039478318694 (-53).
Proof. vm_compute. reflexivity. Qed.

Lemma one_eq : one = S754_finite false 4503599627370496 (-52).
Proof. vm_compute. reflexivity. Qed.

(** [0.3 < 0.7]: nothing at or above [0.7] is below [0.3]. *)
Lemma leb_0_7_not_ltb_0_3 s :
  leb lit_0_7 s = true -> ltb s lit_0_3 = false.
Proof.
  rewrite lit_0_7_eq, lit_0_3_eq. unfold leb, ltb, SFleb, SFltb.
  destruct s as [z|i| |sg m e]; cbv beta iota delta [SFcompare];
    try congruence.
  - destruct i; congruence.
  - destruct sg; [congruence|].
    destruct (Z.compare_spec (-53) e), (Z.compare_spec e (-54));
      try lia; congruence.
Qed.

Lemma py_round2_not_nan x : is_nan x = false -> is_nan (py_round2 x) = false.
Proof.
  destruct x as [z|i| |sg m e]; try (cbn; congruence). intros _.
  unfold py_round2, float_of_ratio.
  destruct (round_of_parts (Z.pos m * 100, e) =? 0); [reflexivity|].
  destruct (normalise53 _). reflexivity.
Qed.

End FloatOrder.

(** ** The three labels *)

Section Labels.

Lemma sentiment_cases p :
  (sentiment p = lit "Positive" <-> ltb zero p = true)
  /\ (sentiment p = lit "Negative" <-> ltb p zero = true)
  /\ (sentiment p = lit "Neutral"
      <-> ltb zero p = false /\ ltb p zero = false).
Proof.
  unfold sentiment.
  destruct (ltb zero p) eqn:P.
  - rewrite (ltb_antisym _ _ P).
    repeat split; intros; try reflexivity; try discriminate.
    destruct H; discriminate.
  - destruct (ltb p zero) eqn:N;
      repeat split; intros; try reflexivity; try discriminate.
    destruct H; discriminate.
Qed.

Lemma bias_cases s :
  (bias s = lit "Low" <-> ltb s lit_0_3 = true)
  /\ (bias s = lit "Moderate"
      <-> ltb s lit_0_3 = false /\ ltb s lit_0_7 = true)
  /\ (bias s = lit "High"
      <-> ltb s lit_0_3 = false /\ ltb s lit_0_7 = false).
Proof.
  unfold bias.
  destruct (ltb s lit_0_3) eqn:A; [|destruct (ltb s lit_0_7) eqn:B];
    repeat split; intros; try reflexivity; try discriminate;
    destruct H; discriminate.
Qed.

Lemma credibility_cases s :
  (credibility s = lit "True" <-> ltb s lit_0_5 = true)
  /\ (credibility s = lit "False" <-> ltb s lit_0_5 = false).
Proof.
  unfold credibility.
  destruct (ltb s lit_0_5); repeat split; intros;
    try reflexivity; discriminate.
Qed.

End Labels.

(** ** Strings: [strip] and [split] *)

Section Strings.

Lemma lstrip_nil s : lstrip s = [] <-> blank s = true.
Proof.
  induction s as [|c s IH]; cbn; [tauto|].
  destruct (isspace c); cbn; [exact IH|].
  split; discriminate.
Qed.

Lemma lstrip_head s c r : lstrip s = c :: r -> isspace c = false.
Proof.
  induction s as [|c' s IH]; cbn; [discriminate|].
  destruct (isspace c') eqn:E; [exact IH|].
  intros [= <- _]. exact E.
Qed.

Lemma blank_rev s : blank (rev s) = blank s.
Proof.
  unfold blank. induction s as [|c s IH]; cbn; [reflexivity|].
  rewrite forallb_app, IH. cbn. rewrite andb_true_r. apply andb_comm.
Qed.

Lemma rev_nil {A : Type} (l : list A) : rev l = [] <-> l = [].
Proof.
  split; [|intros ->; reflexivity].
  intros E. apply (f_equal (@rev A)) in E. rewrite rev_involutive in E.
  exact E.
Qed.

(** [s.strip()] is empty exactly when [s] is blank. *)
Lemma strip_nil s : strip s = [] <-> blank s = true.
Proof.
  unfold strip, rstrip.
  rewrite (rev_nil (lstrip (rev (lstrip s)))).
  rewrite (lstrip_nil (rev (lstrip s))), blank_rev.
  destruct (lstrip s) as [|c r] eqn:E.
  - apply lstrip_nil in E. rewrite E. tauto.
  - cbn. rewrite (lstrip_head s c r E). cbn.
    split; [discriminate|]. intros B. apply lstrip_nil in B. congruence.
Qed.

Lemma split_from_nil cur s :
  split_from cur s = [] <-> cur = [] /\ blank s = true.
Proof.
  revert cur. induction s as [|c s IH]; intros cur; cbn.
  - destruct cur; split; try tauto; try discriminate.
    intros [E _]; discriminate.
  - destruct (isspace c); cbn.
    + destruct cur.
      * rewrite IH. tauto.
      * split; [discriminate|]. intros [E _]; discriminate.
    + rewrite IH. split; intros [E ?]; discriminate.
Qed.

(** A text that is not blank has a first word. *)
Lemma split_nonblank s : blank s = false -> 1 <= len (split s).
Proof.
  intros B. unfold split, len.
  destruct (split_from [] s) eqn:E.
  - apply split_from_nil in E. destruct E as [_ E]. congruence.
  - cbn [List.length]. lia.
Qed.

Lemma truthy_strip s : PyStr.truthy (strip s) = negb (blank s).
Proof.
  destruct (blank s) eqn:B.
  - apply strip_nil in B. rewrite B. reflexivity.
  - destruct (strip s) eqn:E; [|reflexivity].
    apply strip_nil in E. congruence.
Qed.

End Strings.

(** ** The ways through [analyze] *)

Section Analyze.

Variable w : World.

Lemma truthy_nonempty (s : pystr) : PyStr.truthy s = true <-> s <> [].
Proof. destruct s; cbn; split; congruence. Qed.

Lemma get_object d :
  get (JDict d) (lit "url")
  = Return (match lookup d (lit "url") with Some v => v | None => JNull end).
Proof. reflexivity. Qed.

Lemma analyze_no_url :
  no_url w -> analyze w = error_response (lit "No URL provided") 400.
Proof.
  unfold analyze.
  intros [(d & G & L) | (v & (d & G & L) & T)];
    rewrite G; cbn [bind]; rewrite get_object, L; cbn [bind].
  - reflexivity.
  - rewrite T. reflexivity.
Qed.

Lemma analyze_url_given url :
  url_given w url ->
  analyze w
  = try_except
      (article <- fetch_article w url ;;
       if negb (PyStr.truthy (Article.text article))
       then Return (error_response
                      (lit "Unable to fetch article content") 400)
       else
         analysis <- text_blob w (Article.text article) ;;
         reading_time <-
           reading_time (len (split (Article.text article))) ;;
         Return
           (JDict
              [(lit "title",
                JStr (if PyStr.truthy (Article.title article)
                      then Article.title article else lit "N/A"));
               (lit "author",
                JStr (match Article.authors article with
                      | [] => lit "N/A"
                      | _ => join (lit ", ") (Article.authors article)
                      end));
               (lit "summary",
                JStr (if PyStr.truthy (Article.summary article)
                      then Article.summary article else lit "N/A"));
               (lit "sentiment",
                JStr (sentiment (py_round2 (TextBlob.polarity analysis))));
               (lit "polarity",
                JFloat (py_round2 (TextBlob.polarity analysis)));
               (lit "bias", JStr (bias (TextBlob.subjectivity analysis)));
               (lit "credibility",
                JStr (credibility (TextBlob.subjectivity analysis)));
               (lit "word_count",
                JInt (len (split (Article.text article))));
               (lit "reading_time", JStr reading_time)],
            200))
      (fun e =>
         error_response (lit "Failed to analyze article: " ++ e) 500).
Proof.
  intros [(d & G & L) T]. unfold analyze.
  rewrite G; cbn [bind]; rewrite get_object, L; cbn [bind].
  rewrite T. reflexivity.
Qed.

Lemma analyze_empty_text url article :
  url_given w url -> fetch_article w url = Return article ->
  Article.text article = [] ->
  analyze w = error_response (lit "Unable to fetch article content") 400.
Proof.
  intros U F E. rewrite (analyze_url_given url U), F. cbn [bind].
  rewrite E. reflexivity.
Qed.

Lemma analyze_exception e :
  analyze_raises w e ->
  analyze w = error_response (lit "Failed to analyze article: " ++ e) 500.
Proof.
  intros [G | [(data & G & A) | [(url & U & F) | (url & art & U & F & N & B)]]].
  - unfold analyze. rewrite G. reflexivity.
  - unfold analyze. rewrite G. cbn [bind]. rewrite A. reflexivity.
  - rewrite (analyze_url_given url U), F. reflexivity.
  - rewrite (analyze_url_given url U), F. cbn [bind].
    apply truthy_nonempty in N. rewrite N. cbn [negb]. rewrite B.
    reflexivity.
Qed.

Lemma analyze_success article analysis :
  analyze_run w article analysis ->
  exists minutes,
    reading_minutes (len (split (Article.text article))) = Return minutes
    /\ 0 <= minutes
    /\ analyze w
       = (JDict
            [(lit "title",
              JStr (if PyStr.truthy (Article.title article)
                    then Article.title article else lit "N/A"));
             (lit "author",
              JStr (match Article.authors article with
                    | [] => lit "N/A"
                    | _ => join (lit ", ") (Article.authors article)
                    end));
             (lit "summary",
              JStr (if PyStr.truthy (Article.summary article)
                    then Article.summary article else lit "N/A"));
             (lit "sentiment",
              JStr (sentiment (py_round2 (TextBlob.polarity analysis))));
             (lit "polarity",
              JFloat (py_round2 (TextBlob.polarity analysis)));
             (lit "bias", JStr (bias (TextBlob.subjectivity analysis)));
             (lit "credibility",
              JStr (credibility (TextBlob.subjectivity analysis)));
             (lit "word_count",
              JInt (len (split (Article.text article))));
             (lit "reading_time",
              JStr (of_int minutes ++ lit " min read"))],
          200).
Proof.
  intros (url & U & F & N & B).
  destruct (reading_minutes_returns (len (split (Article.text article))))
    as (n & E & Hn); [unfold len; lia|].
  exists n. split; [exact E|]. split; [exact Hn|].
  rewrite (analyze_url_given url U), F. cbn [bind].
  apply truthy_nonempty in N. rewrite N. cbn [negb]. rewrite B.
  cbn [bind]. rewrite (reading_time_eq _ n E). reflexivity.
Qed.

(** Every request goes one of the four ways. *)
Lemma analyze_ways :
  no_url w
  \/ (exists url article,
        url_given w url /\ fetch_article w url = Return article
        /\ Article.text article = [])
  \/ (exists e, analyze_raises w e)
  \/ (exists article analysis, analyze_run w article analysis).
Proof.
  destruct (get_json w) as [data|e] eqn:G;
    [|right; right; left; exists e; left; exact G].
  destruct (get data (lit "url")) as [v|e] eqn:A;
    [|right; right; left; exists e; right; left; exists data; auto].
  assert (F : exists d, data = JDict d
              /\ v = match lookup d (lit "url") with
                     | Some v => v | None => JNull end).
  { destruct data; try discriminate A. eexists; split; [reflexivity|].
    rewrite get_object in A. injection A as <-. reflexivity. }
  destruct F as (d & -> & ->).
  destruct (lookup d (lit "url")) as [url|] eqn:L;
    [|left; left; exists d; auto].
  destruct (truthy url) eqn:T;
    [|left; right; exists url; split; [exists d; auto|exact T]].
  assert (U : url_given w url) by (split; [exists d; auto|exact T]).
  destruct (fetch_article w url) as [article|e] eqn:F;
    [|right; right; left; exists e; right; right; left; exists url; auto].
  destruct (Article.text article) as [|c r] eqn:X;
    [right; left; exists url, article; auto|].
  assert (N : Article.text article <> []) by (rewrite X; discriminate).
  destruct (text_blob w (Article.text article)) as [analysis|e] eqn:B.
  - right; right; right. exists article, analysis, url. auto.
  - right; right; left. exists e. right; right; right.
    exists url, article. auto.
Qed.

End Analyze.

(** ** The ways through [analyze_local] *)

Section AnalyzeLocal.

Variable w : World.

Lemma analyze_local_absent :
  sample_file w = None ->
  analyze_local w
  = error_response (lit "sample_article.txt not found") 400.
Proof. intros E. unfold analyze_local. rewrite E. reflexivity. Qed.

Lemma analyze_local_blank text :
  sample_file w = Some (Return text) -> blank text = true ->
  analyze_local w = error_response (lit "sample article is empty") 400.
Proof.
  intros E B. unfold analyze_local. rewrite E. cbn [bind].
  rewrite truthy_strip, B. reflexivity.
Qed.

Lemma analyze_local_exception e :
  analyze_local_raises w e -> analyze_local w = error_response e 500.
Proof.
  unfold analyze_local. intros [E | (text & E & B & T)]; rewrite E.
  - reflexivity.
  - cbn [bind]. rewrite truthy_strip, B. cbn [negb]. rewrite T.
    reflexivity.
Qed.

Lemma analyze_local_success text analysis :
  analyze_local_run w text analysis ->
  exists minutes,
    reading_minutes (len (split text)) = Return minutes
    /\ 0 <= minutes
    /\ analyze_local w
       = (JDict
            [(lit "title", JStr (lit "Sample Article"));
             (lit "author", JStr (lit "Local Test"));
             (lit "summary",
              JStr (prefix 300 text
                    ++ (if 300 <? len text then lit "..." else [])));
             (lit "sentiment",
              JStr (sentiment (py_round2 (TextBlob.polarity analysis))));
             (lit "polarity",
              JFloat (py_round2 (TextBlob.polarity analysis)));
             (lit "bias", JStr (bias (TextBlob.subjectivity analysis)));
             (lit "credibility",
              JStr (credibility (TextBlob.subjectivity analysis)));
             (lit "word_count", JInt (len (split text)));
             (lit "reading_time",
              JStr (of_int minutes ++ lit " min read"))],
          200).
Proof.
  intros (E & B & T).
  destruct (reading_minutes_returns (len (split text)))
    as (n & M & Hn); [unfold len; lia|].
  exists n. split; [exact M|]. split; [exact Hn|].
  unfold analyze_local. rewrite E. cbn [bind].
  rewrite truthy_strip, B. cbn [negb]. rewrite T. cbn [bind].
  rewrite (reading_time_eq _ n M). reflexivity.
Qed.

(** Every request goes one of the four ways. *)
Lemma analyze_local_ways :
  sample_file w = None
  \/ (exists text, sample_file w = Some (Return text) /\ blank text = true)
  \/ (exists e, analyze_local_raises w e)
  \/ (exists text analysis, analyze_local_run w text analysis).
Proof.
  destruct (sample_file w) as [[text|e]|] eqn:E; [| |left; reflexivity].
  - destruct (blank text) eqn:B; [right; left; exists text; auto|].
    destruct (text_blob w text) as [analysis|e] eqn:T.
    + right; right; right. exists text, analysis. split; auto.
    + right; right; left. exists e. right. exists text. auto.
  - right; right; left. exists e. left. exact E.
Qed.

End AnalyzeLocal.

(** ** Successful responses *)

Section Success.

Variable w : World.

Lemma analyze_ok_run :
  status (analyze w) = 200 ->
  exists article analysis, analyze_run w article analysis.
Proof.
  intros S.
  destruct (analyze_ways w)
    as [N | [(url & art & U & F & X) | [(e & R) | H]]].
  - rewrite (analyze_no_url w N) in S. discriminate S.
  - rewrite (analyze_empty_text w url art U F X) in S. discriminate S.
  - rewrite (analyze_exception w e R) in S. discriminate S.
  - exact H.
Qed.

Lemma analyze_local_ok_run :
  status (analyze_local w) = 200 ->
  exists text analysis, analyze_local_run w text analysis.
Proof.
  intros S.
  destruct (analyze_local_ways w)
    as [N | [(text & E & B) | [(e & R) | H]]].
  - rewrite (analyze_local_absent w N) in S. discriminate S.
  - rewrite (analyze_local_blank w text E B) in S. discriminate S.
  - rewrite (analyze_local_exception w e R) in S. discriminate S.
  - exact H.
Qed.

(** The derived fields of a response whose run analysed a text. *)
Lemma analysed_fields analysis r :
  analysed w analysis r ->
  status r = 200
  /\ field "sentiment" r
     = Some (JStr (sentiment (py_round2 (TextBlob.polarity analysis))))
  /\ field "polarity" r
     = Some (JFloat (py_round2 (TextBlob.polarity analysis)))
  /\ field "bias" r = Some (JStr (bias (TextBlob.subjectivity analysis)))
  /\ field "credibility" r
     = Some (JStr (credibility (TextBlob.subjectivity analysis))).
Proof.
  intros [(art & R & ->) | (text & R & ->)].
  - destruct (analyze_success w art analysis R) as (n & _ & _ & ->).
    repeat split; reflexivity.
  - destruct (analyze_local_success w text analysis R) as (n & _ & _ & ->).
    repeat split; reflexivity.
Qed.

(** Every 200 response is one of these. *)
Lemma ok_response_analysed r :
  r = analyze w \/ r = analyze_local w -> status r = 200 ->
  exists analysis, analysed w analysis r.
Proof.
  intros [-> | ->] S.
  - destruct (analyze_ok_run S) as (art & a & R).
    exists a. left. exists art. auto.
  - destruct (analyze_local_ok_run S) as (text & a & R).
    exists a. right. exists text. auto.
Qed.

End Success.

(** ** Examples: the handlers on the sample requests *)

Section Examples.

Example analyze_local_good_news :
  let r := analyze_local Sample.world in
  status r = 200
  /\ field "title" r = Some (JStr (lit "Sample Article"))
  /\ field "author" r = Some (JStr (lit "Local Test"))
  /\ field "summary" r = Some (JStr (lit "Good news today."))
  /\ field "sentiment" r = Some (JStr (lit "Positive"))
  /\ field "bias" r = Some (JStr (lit "Moderate"))
  /\ field "credibility" r = Some (JStr (lit "False"))
  /\ field "word_count" r = Some (JInt 3)
  /\ field "reading_time" r = Some (JStr (lit "0 min read")).
Proof. vm_compute. repeat split; reflexivity. Qed.

Example analyze_good_news :
  let r := analyze Sample.world in
  status r = 200
  /\ field "title" r = Some (JStr (lit "Harvest"))
  /\ field "author" r = Some (JStr (lit "A. Reporter, B. Editor"))
  /\ field "summary" r = Some (JStr (lit "N/A"))
  /\ field "word_count" r = Some (JInt 3).
Proof. vm_compute. repeat split; reflexivity. Qed.

Example analyze_empty_article :
  analyze (Sample.with_article
             (Return {| Article.title := lit "Harvest";
                        Article.authors := [];
                        Article.text := [];
                        Article.summary := [] |}))
  = error_response (lit "Unable to fetch article content") 400.
Proof. vm_compute. reflexivity. Qed.

Example analyze_download_fails :
  analyze (Sample.with_article (Raise (lit "Article `download()` failed")))
  = error_response
      (lit "Failed to analyze article: Article `download()` failed") 500.
Proof. vm_compute. reflexivity. Qed.

Example analyze_empty_url :
  analyze (Sample.with_body (Return (JDict [(lit "url", JStr [])])))
  = error_response (lit "No URL provided") 400.
Proof. vm_compute. reflexivity. Qed.

Example analyze_local_no_file :
  analyze_local (Sample.with_file None)
  = error_response (lit "sample_article.txt not found") 400.
Proof. vm_compute. reflexivity. Qed.

Example analyze_local_white_space :
  analyze_local (Sample.with_file (Some (Return [32; 10; 9]%N)))
  = error_response (lit "sample article is empty") 400.
Proof. vm_compute. reflexivity. Qed.

Example analyze_local_lookup_error :
  analyze_local (Sample.with_score (Raise (lit "Resource punkt not found.")))
  = error_response (lit "Resource punkt not found.") 500.
Proof. vm_compute. reflexivity. Qed.

Example analyze_list_body :
  analyze (Sample.with_body (Return (JList [])))
  = error_response
      (lit "Failed to analyze article: 'list' object has no attribute 'get'")
      500.
Proof. vm_compute. reflexivity. Qed.

Example analyze_local_long_text :
  field "summary" (analyze_local (Sample.with_file
                                    (Some (Return Sample.long_text))))
  = Some (JStr (lit "word " ++ repeat 120%N 295 ++ lit "...")).
Proof. vm_compute. reflexivity. Qed.

(** From [200 * 2^46] words on, the float quotient can fall on a
    half that the rational is below: Python's [round(w / 200)] is
    then one above the exact rounding. *)
Example reading_minutes_float_tie :
  let w := 200 * (2 ^ 46 + 1) + 99 in
  reading_minutes w = Return (2 ^ 46 + 2)
  /\ round_half_even w 200 = 2 ^ 46 + 1.
Proof. vm_compute. split; reflexivity. Qed.

(** Half-way cases of [round(word_count / 200)] go to the even
    minute. *)
Example reading_minutes_ties :
  map reading_minutes [0; 100; 101; 300; 500; 700; 900]
  = map Return [0; 0; 1; 2; 2; 4; 4].
Proof. vm_compute. reflexivity. Qed.

(** The quotient is the one of binary64 division. *)
Example int_truediv_is_binary64_division :
  map (fun n => int_truediv (Zpos n) 200)
      [1; 3; 100; 199; 200; 12345; 9007199254740993]%positive
  = map (fun n => SFdiv 53 1024 (S754_finite false n 0)
                    (S754_finite false 200 0))
      [1; 3; 100; 199; 200; 12345; 9007199254740993]%positive.
Proof. vm_compute. reflexivity. Qed.

(** [round(x, 2)] on a few scores: [0.125 -> 0.12], [0.375 -> 0.38]
    (ties on the exact value go to the even hundredth), and a score
    under half a hundredth rounds to zero of its sign. *)
Example py_round2_scores :
  map py_round2 [int_truediv 125 1000; int_truediv 375 1000;
                 int_truediv 4 1000; int_truediv (-4) 1000;
                 int_truediv 7 10]
  = [int_truediv 12 100; int_truediv 38 100;
     S754_zero false; S754_zero true; int_truediv 7 10].
Proof. vm_compute. reflexivity. Qed.

(** The label is the one of the rounded score: a raw score of
    [0.004] is above zero and is labelled "Neutral". *)
Example sentiment_of_small_score :
  ltb zero (int_truediv 4 1000) = true
  /\ sentiment (py_round2 (int_truediv 4 1000)) = lit "Neutral".
Proof. vm_compute. split; reflexivity. Qed.

End Examples.

Import Order.

(** ** Scores that round to zero *)

Section HalfHundredth.

Lemma round_half_even_zero n d :
  0 <= n -> 0 < d -> (round_half_even n d = 0 <-> 2 * n <= d).
Proof.
  intros Hn Hd. pose proof (round_half_even_bounds n d Hd) as [L U].
  split.
  - intros E. rewrite E in *. lia.
  - intros H. destruct (Z.eq_dec (2 * n) d) as [T|T].
    + rewrite (round_half_even_tie n d 0 Hd) by lia. reflexivity.
    + apply round_half_even_unique; lia.
Qed.

Lemma float_of_ratio_sign s n :
  0 <= n ->
  (ltb zero (float_of_ratio s n 100) = true <-> s = false /\ 0 < n)
  /\ (ltb (float_of_ratio s n 100) zero = true <-> s = true /\ 0 < n).
Proof.
  intros Hn. unfold float_of_ratio.
  destruct (Z.eqb_spec n 0) as [->|N].
  - destruct s; split; split; try discriminate; intros [_ H]; lia.
  - destruct (normalise53 (nearest53 n 100)) as [m e].
    destruct s; split; split; try reflexivity; try discriminate;
      try (intros _; split; [reflexivity|lia]);
      intros [H _]; discriminate H.
Qed.

Lemma hundredths_zero m e :
  round_of_parts (Zpos m * 100, e) = 0
  <-> (pow2p (- e) <? 200 * Zpos m * pow2p e) = false.
Proof.
  unfold round_of_parts, round_frac, shift_frac. cbn [fst snd].
  pose proof (pow2p_pos e) as P. pose proof (pow2p_pos (- e)) as Q.
  rewrite round_half_even_zero by nia.
  rewrite Z.ltb_ge. split; intros H; nia.
Qed.

Lemma py_round2_sign x :
  (ltb zero (py_round2 x) = true <-> above_0_005 x = true)
  /\ (ltb (py_round2 x) zero = true <-> below_minus_0_005 x = true).
Proof.
  destruct x as [s|s| |s m e].
  - destruct s; split; split; discriminate.
  - destruct s; split; split; try discriminate; reflexivity.
  - split; split; discriminate.
  - cbn [py_round2 above_0_005 below_minus_0_005].
    pose proof (round_of_parts_nonneg (Zpos m * 100) e ltac:(lia)) as Hn.
    destruct (float_of_ratio_sign s _ Hn) as [A B].
    pose proof (hundredths_zero m e) as Z0.
    rewrite A, B.
    destruct (pow2p (- e) <? 200 * Zpos m * pow2p e); destruct s;
      split; split; try discriminate; try reflexivity;
      try (intros [H _]; discriminate H);
      try (intros _; split; [reflexivity|]);
      try (intros [_ H]; destruct Z0 as [_ Z0]; specialize (Z0 eq_refl); lia);
      destruct (Z.eq_dec (round_of_parts (Zpos m * 100, e)) 0) as [E|E];
      try lia; apply Z0 in E; discriminate E.
Qed.

End HalfHundredth.

(** ** The float of the literal [0.005] *)

Section Literal.

Lemma compare_cont_eq p q :
  PosDef.Pos.compare_cont Eq p q = Z.compare (Zpos p) (Zpos q).
Proof. reflexivity. Qed.

Lemma lit_0_005_eq :
  int_truediv 5 1000 = S754_finite false 5764607523034235 (-60).
Proof. vm_compute. reflexivity. Qed.

Lemma valid_normal s m e :
  valid_binary 53 1024 (S754_finite s m e) = true ->
  Zpos m < 2 ^ 53 /\ (-1074 < e -> 2 ^ 52 <= Zpos m).
Proof.
  cbn [valid_binary]. unfold bounded, canonical_mantissa, fexp, emin.
  intros V. apply andb_prop in V. destruct V as [C _].
  apply Z.eqb_eq in C. rewrite digits2_pos_log2 in C.
  pose proof (Z.log2_spec (Zpos m) ltac:(lia)) as [L U].
  split.
  - apply Z.log2_lt_pow2; lia.
  - intros E. assert (X : Z.log2 (Zpos m) = 52) by lia.
    rewrite X in L. exact L.
Qed.

(** On a binary64 value, [above_0_005] is the comparison with the
    float of the literal [0.005], which is the least float above
    [1/200]. *)
Lemma above_0_005_leb x :
  valid_binary 53 1024 x = true ->
  above_0_005 x = leb (int_truediv 5 1000) x.
Proof.
  intros V. rewrite lit_0_005_eq.
  destruct x as [z|i| |s m e]; try reflexivity.
  - destruct i; reflexivity.
  - destruct s; [reflexivity|].
    destruct (valid_normal _ m e V) as [M N].
    unfold above_0_005, leb, SFleb.
    cbv beta iota delta [SFcompare]. rewrite compare_cont_eq.
    change (2 ^ 53) with 9007199254740992 in M.
    change (2 ^ 52) with 4503599627370496 in N.
    destruct (Z.compare_spec (-60) e) as [E|L|G].
    + subst e. change (pow2p (- -60)) with 1152921504606846976.
      change (pow2p (-60)) with 1.
      destruct (Z.compare_spec 5764607523034235 (Zpos m));
        [apply Z.ltb_lt|apply Z.ltb_lt|apply Z.ltb_ge]; lia.
    + apply Z.ltb_lt. specialize (N ltac:(lia)).
      destruct (Z.le_gt_cases 0 e) as [P|P].
      * pose proof (pow2p_pos e).
        assert (Q : pow2p (- e) = 1)
          by (unfold pow2p; rewrite Z.max_l by lia; reflexivity).
        rewrite Q. nia.
      * assert (Q : pow2p e = 1)
          by (unfold pow2p; rewrite Z.max_l by lia; reflexivity).
        assert (R : pow2p (- e) <= 2 ^ 59).
        { unfold pow2p. rewrite Z.max_r by lia.
          apply Z.pow_le_mono_r; lia. }
        change (2 ^ 59) with 576460752303423488 in R.
        rewrite Q. lia.
    + apply Z.ltb_ge.
      assert (Q : pow2p e = 1)
        by (unfold pow2p; rewrite Z.max_l by lia; reflexivity).
      assert (R : 2 ^ 61 <= pow2p (- e)).
      { unfold pow2p. rewrite Z.max_r by lia.
        apply Z.pow_le_mono_r; lia. }
      change (2 ^ 61) with 2305843009213693952 in R.
      rewrite Q. lia.
Qed.

Lemma lit_minus_0_005_eq :
  int_truediv (-5) 1000 = S754_finite true 5764607523034235 (-60).
Proof. vm_compute. reflexivity. Qed.

Lemma below_minus_0_005_leb x :
  valid_binary 53 1024 x = true ->
  below_minus_0_005 x = leb x (int_truediv (-5) 1000).
Proof.
  intros V. rewrite lit_minus_0_005_eq.
  destruct x as [z|i| |s m e]; try reflexivity.
  - destruct i; reflexivity.
  - destruct s; [|reflexivity].
    destruct (valid_normal _ m e V) as [M N].
    unfold below_minus_0_005, leb, SFleb.
    cbv beta iota delta [SFcompare]. rewrite compare_cont_eq.
    change (2 ^ 53) with 9007199254740992 in M.
    change (2 ^ 52) with 4503599627370496 in N.
    destruct (Z.compare_spec e (-60)) as [E|L|G].
    + subst e. change (pow2p (- -60)) with 1152921504606846976.
      change (pow2p (-60)) with 1.
      destruct (Z.compare_spec (Zpos m) 5764607523034235);
        cbn [CompOpp];
        [apply Z.ltb_lt|apply Z.ltb_ge|apply Z.ltb_lt]; lia.
    + apply Z.ltb_ge.
      assert (Q : pow2p e = 1)
        by (unfold pow2p; rewrite Z.max_l by lia; reflexivity).
      assert (R : 2 ^ 61 <= pow2p (- e)).
      { unfold pow2p. rewrite Z.max_r by lia.
        apply Z.pow_le_mono_r; lia. }
      change (2 ^ 61) with 2305843009213693952 in R.
      rewrite Q. lia.
    + apply Z.ltb_lt. specialize (N ltac:(lia)).
      destruct (Z.le_gt_cases 0 e) as [P|P].
      * pose proof (pow2p_pos e).
        assert (Q : pow2p (- e) = 1)
          by (unfold pow2p; rewrite Z.max_l by lia; reflexivity).
        rewrite Q. nia.
      * assert (Q : pow2p e = 1)
          by (unfold pow2p; rewrite Z.max_l by lia; reflexivity).
        assert (R : pow2p (- e) <= 2 ^ 59).
        { unfold pow2p. rewrite Z.max_r by lia.
          apply Z.pow_le_mono_r; lia. }
        change (2 ^ 59) with 576460752303423488 in R.
        rewrite Q. lia.
Qed.

End Literal.

(** ** The urls that [not url] rejects *)

Section EmptyValues.

Lemma truthy_false_iff v : truthy v = false <-> empty_value v.
Proof.
  unfold empty_value. split.
  - destruct v as [|b|n|x|s|l|d]; cbn [truthy]; intros T.
    + left. reflexivity.
    + right. left. rewrite T. reflexivity.
    + right. right. left. apply negb_false_iff, Z.eqb_eq in T.
      rewrite T. reflexivity.
    + right. right. right. left.
      destruct x as [s| | |]; try discriminate T. exists s. reflexivity.
    + do 4 right. left. destruct s; [reflexivity|discriminate T].
    + do 5 right. left. destruct l; [reflexivity|discriminate T].
    + do 6 right. destruct d; [reflexivity|discriminate T].
  - intros [->|[->|[->|[[s ->]|[->|[->| ->]]]]]]; reflexivity.
Qed.

Lemma truthy_true_iff v : truthy v = true <-> ~ empty_value v.
Proof.
  rewrite <- truthy_false_iff. destruct (truthy v); split; congruence.
Qed.

Variable w : World.

Lemma no_url_iff :
  no_url w
  <-> exists d,
        get_json w = Return (JDict d)
        /\ (lookup d (lit "url") = None
            \/ exists v, lookup d (lit "url") = Some v /\ empty_value v).
Proof.
  unfold no_url, url_field. split.
  - intros [(d & G & L) | (v & (d & G & L) & T)]; exists d;
      (split; [exact G|]); [left; exact L|].
    right. exists v. split; [exact L|]. apply truthy_false_iff, T.
  - intros (d & G & [L | (v & L & E)]); [left; exists d; auto|].
    right. exists v. split; [exists d; auto|]. apply truthy_false_iff, E.
Qed.

Lemma url_given_iff url :
  url_given w url
  <-> exists d,
        get_json w = Return (JDict d)
        /\ lookup d (lit "url") = Some url /\ ~ empty_value url.
Proof.
  unfold url_given, url_field. rewrite truthy_true_iff. split.
  - intros [(d & G & L) T]. exists d. auto.
  - intros (d & G & L & T). split; [exists d; auto|exact T].
Qed.

Lemma not_an_object_iff e :
  not_an_object w e
  <-> exists data,
        get_json w = Return data
        /\ (forall d, data <> JDict d)
        /\ e = lit "'" ++ type_name data
                 ++ lit "' object has no attribute 'get'".
Proof.
  unfold not_an_object. split; intros (data & G & H); exists data;
    (split; [exact G|]).
  - destruct data; try discriminate H;
      (split; [intros d X; discriminate X|]);
      injection H as <-; reflexivity.
  - destruct H as [N ->]. destruct data; try reflexivity.
    destruct (N d eq_refl).
Qed.

Lemma analyze_fails_iff e : analyze_fails w e <-> analyze_raises w e.
Proof.
  unfold analyze_fails, analyze_raises. rewrite not_an_object_iff.
  split.
  - intros [G | [N | (d & url & G & L & E & [F | (art & F & T & B)])]].
    + left. exact G.
    + right. left. exact N.
    + right. right. left. exists url. split; [|exact F].
      apply url_given_iff. exists d. auto.
    + right. right. right. exists url, art.
      split; [apply url_given_iff; exists d; auto|]. auto.
  - intros [G | [N | [(url & U & F) | (url & art & U & F & T & B)]]].
    + left. exact G.
    + right. left. exact N.
    + apply url_given_iff in U. destruct U as (d & G & L & E).
      right. right. exists d, url. auto.
    + apply url_given_iff in U. destruct U as (d & G & L & E).
      right. right. exists d, url. repeat split; auto.
      right. exists art. auto.
Qed.

End EmptyValues.

(** * The claims *)

Lemma some_str_inj (x y : pystr) : Some (JStr x) = Some (JStr y) <-> x = y.
Proof. split; [intros [= ->]; reflexivity | intros ->; reflexivity]. Qed.

Lemma faint_analysed :
  analysed (Sample.with_score (Return Sample.faint)) Sample.faint
    (analyze (Sample.with_score (Return Sample.faint))).
Proof.
  left. exists Sample.article. split; [|reflexivity].
  exists (JStr (lit "https://example.org/a")).
  repeat split; try reflexivity.
  - eexists. split; reflexivity.
  - discriminate.
Qed.

Lemma faint_local_analysed :
  analysed (Sample.with_score (Return Sample.faint)) Sample.faint
    (analyze_local (Sample.with_score (Return Sample.faint))).
Proof.
  right. exists Sample.good_news. split; [|reflexivity].
  repeat split; reflexivity.
Qed.

(** C1 as it is worded fails: [TextBlob] produces the polarity
    [0.004], which is above zero, and both handlers label it
    "Neutral", not "Positive". *)
Lemma positive_polarity_labelled_neutral :
  let w := Sample.with_score (Return Sample.faint) in
  let p := TextBlob.polarity Sample.faint in
  analysed w Sample.faint (analyze w)
  /\ analysed w Sample.faint (analyze_local w)
  /\ ltb zero p = true
  /\ field "sentiment" (analyze w) = Some (JStr (lit "Neutral"))
  /\ field "sentiment" (analyze_local w) = Some (JStr (lit "Neutral"))
  /\ ~ (field "sentiment" (analyze w) = Some (JStr (lit "Positive"))
        <-> ltb zero p = true)
  /\ ~ (field "sentiment" (analyze w) = Some (JStr (lit "Neutral"))
        <-> eqb p zero = true).
Proof.
  split; [exact faint_analysed|]. split; [exact faint_local_analysed|].
  split; [reflexivity|]. split; [reflexivity|]. split; [reflexivity|].
  split.
  - intros [_ H]. specialize (H eq_refl). vm_compute in H. discriminate H.
  - intros [H _]. specialize (H eq_refl). vm_compute in H. discriminate H.
Qed.

(** C1. The label follows the polarity [p] of the response, which is
    the score of [TextBlob] rounded to two decimals, not the score
    itself.  In the response of either handler the field [polarity]
    is [p = round(score, 2)], and the field [sentiment] is "Positive"
    iff [score > 0.005], which is iff [p > 0]; "Negative" iff
    [score < -0.005], which is iff [p < 0]; and "Neutral" otherwise,
    that is, for a score that is a number, iff [p == 0].  On a
    binary64 score, [score > 0.005] is the comparison
    [score >= 0.005] of floats, and [score < -0.005] is
    [score <= -0.005]. *)
Theorem sentiment_label_follows_rounded_polarity
    (w : World) (analysis : TextBlob.t) (r : response) :
  analysed w analysis r ->
  let score := TextBlob.polarity analysis in
  let p := py_round2 score in
  field "polarity" r = Some (JFloat p)
  /\ (field "sentiment" r = Some (JStr (lit "Positive"))
      <-> above_0_005 score = true)
  /\ (field "sentiment" r = Some (JStr (lit "Negative"))
      <-> below_minus_0_005 score = true)
  /\ (field "sentiment" r = Some (JStr (lit "Neutral"))
      <-> above_0_005 score = false /\ below_minus_0_005 score = false)
  /\ (field "sentiment" r = Some (JStr (lit "Positive")) <-> ltb zero p = true)
  /\ (field "sentiment" r = Some (JStr (lit "Negative")) <-> ltb p zero = true)
  /\ (is_nan score = false ->
      (field "sentiment" r = Some (JStr (lit "Neutral"))
       <-> eqb p zero = true))
  /\ (valid_binary 53 1024 score = true ->
      (field "sentiment" r = Some (JStr (lit "Positive"))
       <-> leb (int_truediv 5 1000) score = true)
      /\ (field "sentiment" r = Some (JStr (lit "Negative"))
          <-> leb score (int_truediv (-5) 1000) = true)).
Proof.
  intros A score p.
  destruct (analysed_fields w analysis r A) as (_ & S & P & _).
  fold score in S, P. fold p in S, P. rewrite S, !some_str_inj.
  destruct (sentiment_cases p) as (Pos & Neg & Neu).
  destruct (py_round2_sign score) as [Ab Be]. fold p in Ab, Be.
  split; [exact P|].
  split; [rewrite Pos; exact Ab|].
  split; [rewrite Neg; exact Be|].
  split.
  { rewrite Neu. rewrite <- !not_true_iff_false, Ab, Be. reflexivity. }
  split; [exact Pos|]. split; [exact Neg|]. split.
  - intros N.
    assert (Np : is_nan p = false) by (apply py_round2_not_nan; exact N).
    rewrite Neu. symmetry. apply eqb_iff_not_ltb; [exact Np | reflexivity].
  - intros V.
    rewrite <- (above_0_005_leb score V), <- (below_minus_0_005_leb score V).
    rewrite Pos, Neg. split; [exact Ab | exact Be].
Qed.

Lemma sample_local_analysed :
  analysed Sample.world Sample.score (analyze_local Sample.world).
Proof.
  right. exists Sample.good_news. split; [|reflexivity].
  repeat split; reflexivity.
Defined.

Lemma sample_analysed :
  analysed Sample.world Sample.score (analyze Sample.world).
Proof.
  left. exists Sample.article. split; [|reflexivity].
  exists (JStr (lit "https://example.org/a")).
  repeat split; try reflexivity.
  - eexists. split; reflexivity.
  - discriminate.
Defined.

Lemma sentiment_label_follows_rounded_polarity_witness :
  let r := analyze_local Sample.world in
  let score := TextBlob.polarity Sample.score in
  let p := py_round2 score in
  field "polarity" r = Some (JFloat p)
  /\ (field "sentiment" r = Some (JStr (lit "Positive"))
      <-> above_0_005 score = true)
  /\ (field "sentiment" r = Some (JStr (lit "Negative"))
      <-> below_minus_0_005 score = true)
  /\ (field "sentiment" r = Some (JStr (lit "Neutral"))
      <-> above_0_005 score = false /\ below_minus_0_005 score = false)
  /\ (field "sentiment" r = Some (JStr (lit "Positive")) <-> ltb zero p = true)
  /\ (field "sentiment" r = Some (JStr (lit "Negative")) <-> ltb p zero = true)
  /\ (is_nan score = false ->
      (field "sentiment" r = Some (JStr (lit "Neutral"))
       <-> eqb p zero = true))
  /\ (valid_binary 53 1024 score = true ->
      (field "sentiment" r = Some (JStr (lit "Positive"))
       <-> leb (int_truediv 5 1000) score = true)
      /\ (field "sentiment" r = Some (JStr (lit "Negative"))
          <-> leb score (int_truediv (-5) 1000) = true)).
Proof.
  exact (sentiment_label_follows_rounded_polarity
           Sample.world Sample.score (analyze_local Sample.world)
           sample_local_analysed).
Defined.

(** C2. For a subjectivity [s] in [[0, 1]], the field [bias] of the
    response of either handler is "Low" iff [s < 0.3], "Moderate" iff
    [0.3 <= s < 0.7] and "High" iff [s >= 0.7]; it is exactly one of
    the three labels. *)
Theorem bias_label_thresholds
    (w : World) (analysis : TextBlob.t) (r : response) :
  analysed w analysis r ->
  let s := TextBlob.subjectivity analysis in
  leb zero s = true -> leb s one = true ->
  (field "bias" r = Some (JStr (lit "Low")) <-> ltb s lit_0_3 = true)
  /\ (field "bias" r = Some (JStr (lit "Moderate"))
      <-> leb lit_0_3 s = true /\ ltb s lit_0_7 = true)
  /\ (field "bias" r = Some (JStr (lit "High")) <-> leb lit_0_7 s = true)
  /\ exists! l, In l [lit "Low"; lit "Moderate"; lit "High"]
                /\ field "bias" r = Some (JStr l).
Proof.
  intros A s L0 L1.
  destruct (analysed_fields w analysis r A) as (_ & _ & _ & B & _).
  fold s in B. rewrite B. rewrite !some_str_inj.
  destruct (bias_cases s) as (Lo & Mo & Hi).
  assert (Ns : is_nan s = false) by (apply (leb_not_nan_r zero); exact L0).
  assert (N3 : is_nan lit_0_3 = false) by reflexivity.
  assert (N7 : is_nan lit_0_7 = false) by reflexivity.
  pose proof (ltb_false_iff_leb s lit_0_3 Ns N3) as F3.
  pose proof (ltb_false_iff_leb s lit_0_7 Ns N7) as F7.
  pose proof (leb_0_7_not_ltb_0_3 s) as T.
  repeat split.
  - apply Lo.
  - apply Lo.
  - apply F3, Mo, H.
  - apply Mo, H.
  - intros [H3 H7]. apply Mo. split; [apply F3, H3 | exact H7].
  - intros H. apply F7, Hi, H.
  - intros H. apply Hi. split; [apply T, H | apply F7, H].
  - exists (bias s). split.
    + split; [|reflexivity]. unfold bias.
      destruct (ltb s lit_0_3); [left; reflexivity|].
      destruct (ltb s lit_0_7); [right; left|right; right; left]; reflexivity.
    + intros l [_ E]. apply some_str_inj in E. exact E.
Qed.

Lemma bias_label_thresholds_witness :
  let r := analyze Sample.world in
  let s := TextBlob.subjectivity Sample.score in
  (field "bias" r = Some (JStr (lit "Low")) <-> ltb s lit_0_3 = true)
  /\ (field "bias" r = Some (JStr (lit "Moderate"))
      <-> leb lit_0_3 s = true /\ ltb s lit_0_7 = true)
  /\ (field "bias" r = Some (JStr (lit "High")) <-> leb lit_0_7 s = true)
  /\ exists! l, In l [lit "Low"; lit "Moderate"; lit "High"]
                /\ field "bias" r = Some (JStr l).
Proof.
  apply (bias_label_thresholds Sample.world Sample.score
           (analyze Sample.world) sample_analysed);
    vm_compute; reflexivity.
Defined.

(** C3. For every subjectivity [s], the field [credibility] of the
    response of either handler is "True" iff [s < 0.5] and "False"
    otherwise, that is, for a number [s], iff [s >= 0.5]. *)
Theorem credibility_label_threshold
    (w : World) (analysis : TextBlob.t) (r : response) :
  analysed w analysis r ->
  let s := TextBlob.subjectivity analysis in
  (field "credibility" r = Some (JStr (lit "True")) <-> ltb s lit_0_5 = true)
  /\ (field "credibility" r = Some (JStr (lit "False"))
      <-> ltb s lit_0_5 = false)
  /\ (is_nan s = false ->
      (field "credibility" r = Some (JStr (lit "False"))
       <-> leb lit_0_5 s = true)).
Proof.
  intros A s.
  destruct (analysed_fields w analysis r A) as (_ & _ & _ & _ & C).
  fold s in C. rewrite C, !some_str_inj.
  destruct (credibility_cases s) as (T & F).
  split; [exact T|]. split; [exact F|].
  intros Ns. rewrite F. apply ltb_false_iff_leb; [exact Ns | reflexivity].
Qed.

Lemma credibility_label_threshold_witness :
  let r := analyze_local Sample.world in
  let s := TextBlob.subjectivity Sample.score in
  (field "credibility" r = Some (JStr (lit "True")) <-> ltb s lit_0_5 = true)
  /\ (field "credibility" r = Some (JStr (lit "False"))
      <-> ltb s lit_0_5 = false)
  /\ (is_nan s = false ->
      (field "credibility" r = Some (JStr (lit "False"))
       <-> leb lit_0_5 s = true)).
Proof.
  exact (credibility_label_threshold Sample.world Sample.score
           (analyze_local Sample.world) sample_local_analysed).
Defined.

(** C4 as it is worded fails in both directions.  A body that is JSON
    but no object ([[]], [null]) has no [url], and the answer is 500,
    not 400: [data.get] raises an AttributeError.  A body whose [url]
    is the number [0] has a [url] that is no empty string, and the
    answer is 400 "No URL provided". *)
Lemma no_url_is_not_absent_or_empty :
  (let w := Sample.with_body (Return (JList [])) in
   request_url w = None
   /\ analyze w
      = error_response
          (lit "Failed to analyze article: "
             ++ lit "'list' object has no attribute 'get'") 500
   /\ analyze w <> error_response (lit "No URL provided") 400)
  /\ (let w := Sample.with_body (Return JNull) in
      request_url w = None
      /\ status (analyze w) = 500)
  /\ (let w := Sample.with_body (Return (JDict [(lit "url", JInt 0)])) in
      request_url w = Some (JInt 0)
      /\ JInt 0 <> JStr []
      /\ analyze w = error_response (lit "No URL provided") 400).
Proof.
  repeat split; try reflexivity; intros H; discriminate H.
Qed.

(** C4. [analyze] answers 400 with [{error: "No URL provided"}] iff
    the body is a JSON object whose [url] is absent or is a value
    that Python takes for false ([null], the empty string, and also
    [false], [0], [0.0], [[]] and [{}]); 400 with
    [{error: "Unable to fetch article content"}] iff the body is an
    object with any other [url] and the text of the article is empty;
    and 500 with [{error: "Failed to analyze article: <message>"}]
    iff an exception (of the class Exception) is raised in the [try]
    block: by [get_json], by [data.get] on a body that is no object,
    by the article calls or by [TextBlob].  An answer that is not 200
    is the object with the single member [error]: it carries no field
    of the analysis. *)
Theorem analyze_error_responses (w : World) :
  (analyze w = error_response (lit "No URL provided") 400
   <-> exists d,
         get_json w = Return (JDict d)
         /\ (lookup d (lit "url") = None
             \/ exists v, lookup d (lit "url") = Some v /\ empty_value v))
  /\ (analyze w = error_response (lit "Unable to fetch article content") 400
      <-> exists d url article,
            get_json w = Return (JDict d)
            /\ lookup d (lit "url") = Some url
            /\ ~ empty_value url
            /\ fetch_article w url = Return article
            /\ Article.text article = [])
  /\ (forall e, analyze_fails w e ->
        analyze w
        = error_response (lit "Failed to analyze article: " ++ e) 500)
  /\ (status (analyze w) = 500 <-> exists e, analyze_fails w e)
  /\ (status (analyze w) <> 200 ->
      (exists msg, analyze w = error_response msg (status (analyze w)))
      /\ forall k : string,
           In (lit k) Shape.analysis_keys -> field k (analyze w) = None).
Proof.
  pose proof (analyze_ways w) as Ways.
  rewrite <- no_url_iff.
  split; [|split; [|split; [|split]]].
  - split; [|apply analyze_no_url].
    intros H.
    destruct Ways
      as [N | [(url & art & U & F & X) | [(e & R) | (art & a & R)]]].
    + exact N.
    + rewrite (analyze_empty_text w url art U F X) in H. clash H.
    + rewrite (analyze_exception w e R) in H. clash H.
    + destruct (analyze_success w art a R) as (n & _ & _ & E).
      rewrite E in H. apply (f_equal snd) in H. clash H.
  - split.
    + intros H.
      destruct Ways as [N | [(url & art & U & F & X) | [(e & R) | (art & a & R)]]].
      * rewrite (analyze_no_url w N) in H. clash H.
      * apply url_given_iff in U. destruct U as (d & G & L & E).
        exists d, url, art. auto.
      * rewrite (analyze_exception w e R) in H. clash H.
      * destruct (analyze_success w art a R) as (n & _ & _ & E).
        rewrite E in H. apply (f_equal snd) in H. clash H.
    + intros (d & url & art & G & L & E & F & X).
      apply (analyze_empty_text w url art); auto.
      apply url_given_iff. exists d. auto.
  - intros e R. apply analyze_exception, analyze_fails_iff, R.
  - split.
    + intros H.
      destruct Ways as [N | [(url & art & U & F & X) | [(e & R) | (art & a & R)]]].
      * rewrite (analyze_no_url w N) in H. clash H.
      * rewrite (analyze_empty_text w url art U F X) in H. clash H.
      * exists e. apply analyze_fails_iff, R.
      * destruct (analyze_success w art a R) as (n & _ & _ & E).
        rewrite E in H. clash H.
    + intros (e & R). apply analyze_fails_iff in R.
      rewrite (analyze_exception w e R). reflexivity.
  - intros H.
    assert (K : forall msg code (k : string),
                In (lit k) Shape.analysis_keys ->
                field k (error_response msg code) = None).
    { intros msg code k I. unfold field, error_response. cbn [fst lookup].
      repeat (destruct I as [<-|I]; [reflexivity|]). destruct I. }
    destruct Ways
      as [N | [(url & art & U & F & X) | [(e & R) | (art & a & R)]]].
    + rewrite (analyze_no_url w N).
      split; [eexists; reflexivity|apply K].
    + rewrite (analyze_empty_text w url art U F X).
      split; [eexists; reflexivity|apply K].
    + rewrite (analyze_exception w e R).
      split; [eexists; reflexivity|apply K].
    + destruct (analyze_success w art a R) as (n & _ & _ & E).
      rewrite E in H. exfalso. apply H. reflexivity.
Qed.

(** C5. [analyze_local] answers 400 with
    [{error: "sample_article.txt not found"}] iff the sample file is
    absent; 400 with [{error: "sample article is empty"}] iff the file
    is there and its text is blank (empty or white space only); and on
    a text that is read, is not blank and is analysed without an
    exception (and only then) 200 with the analysis response. *)
Theorem analyze_local_responses (w : World) :
  (analyze_local w = error_response (lit "sample_article.txt not found") 400
   <-> sample_file w = None)
  /\ (analyze_local w = error_response (lit "sample article is empty") 400
      <-> exists text, sample_file w = Some (Return text)
                       /\ blank text = true)
  /\ (status (analyze_local w) = 200
      <-> exists text analysis, analyze_local_run w text analysis)
  /\ (forall text analysis,
        analyze_local_run w text analysis ->
        status (analyze_local w) = 200
        /\ field "title" (analyze_local w) = Some (JStr (lit "Sample Article"))
        /\ field "author" (analyze_local w) = Some (JStr (lit "Local Test"))
        /\ field "word_count" (analyze_local w)
           = Some (JInt (len (split text)))
        /\ analysed w analysis (analyze_local w)).
Proof.
  pose proof (analyze_local_ways w) as Ways.
  split; [|split; [|split]].
  - split; [|apply analyze_local_absent].
    intros H.
    destruct Ways as [N | [(text & E & B) | [(e & R) | (text & a & R)]]].
    + exact N.
    + rewrite (analyze_local_blank w text E B) in H. clash H.
    + rewrite (analyze_local_exception w e R) in H. clash H.
    + destruct (analyze_local_success w text a R) as (n & _ & _ & E).
      rewrite E in H. apply (f_equal snd) in H. clash H.
  - split; [|intros (text & E & B); exact (analyze_local_blank w text E B)].
    intros H.
    destruct Ways as [N | [E | [(e & R) | (text & a & R)]]].
    + rewrite (analyze_local_absent w N) in H. clash H.
    + exact E.
    + rewrite (analyze_local_exception w e R) in H. clash H.
    + destruct (analyze_local_success w text a R) as (n & _ & _ & E).
      rewrite E in H. apply (f_equal snd) in H. clash H.
  - split; [apply analyze_local_ok_run|].
    intros (text & a & R).
    destruct (analyze_local_success w text a R) as (n & _ & _ & E).
    rewrite E. reflexivity.
  - intros text a R.
    assert (A : analysed w a (analyze_local w))
      by (right; exists text; split; [exact R | reflexivity]).
    destruct (analyze_local_success w text a R) as (n & _ & _ & E).
    split; [|split; [|split; [|split; [|exact A]]]];
      rewrite E; reflexivity.
Qed.

(** C6. On a 200 response of [analyze_local] for the sample text [t]:
    when [t] has more than 300 characters the field [summary] is the
    first 300 characters of [t] followed by "..."; when it has at most
    300, the field [summary] is [t]. *)
Theorem local_summary_truncation (w : World) :
  status (analyze_local w) = 200 ->
  exists t,
    sample_file w = Some (Return t)
    /\ (300 < len t ->
        field "summary" (analyze_local w)
        = Some (JStr (firstn 300 t ++ lit "...")))
    /\ (len t <= 300 ->
        field "summary" (analyze_local w) = Some (JStr t)).
Proof.
  intros S. destruct (analyze_local_ok_run w S) as (t & a & R).
  exists t. split; [apply R|].
  destruct (analyze_local_success w t a R) as (n & _ & _ & E).
  rewrite E. unfold field. cbn [fst lookup]. unfold prefix.
  change (PyStr.eqb (lit "title") (lit "summary")) with false.
  change (PyStr.eqb (lit "author") (lit "summary")) with false.
  change (PyStr.eqb (lit "summary") (lit "summary")) with true.
  cbv iota. split; intros L.
  - destruct (Z.ltb_spec 300 (len t)) as [_|]; [reflexivity|lia].
  - destruct (Z.ltb_spec 300 (len t)) as [|_]; [lia|].
    rewrite firstn_all2 by (unfold len in L; lia).
    rewrite app_nil_r. reflexivity.
Qed.

Lemma sample_local_ok : status (analyze_local Sample.world) = 200.
Proof. vm_compute. reflexivity. Defined.

Lemma sample_ok : status (analyze Sample.world) = 200.
Proof. vm_compute. reflexivity. Defined.

Lemma local_summary_truncation_witness :
  exists t,
    sample_file Sample.world = Some (Return t)
    /\ (300 < len t ->
        field "summary" (analyze_local Sample.world)
        = Some (JStr (firstn 300 t ++ lit "...")))
    /\ (len t <= 300 ->
        field "summary" (analyze_local Sample.world) = Some (JStr t)).
Proof. exact (local_summary_truncation Sample.world sample_local_ok). Defined.

(** C7. For all word counts [w1 <= w2], [round(w1 / 200)] and
    [round(w2 / 200)] are computed (nothing is raised), the first is
    at most the second, and the reading times are these minutes
    followed by " min read": the reading time does not decrease when
    the word count grows.  The division is the one of floats and the
    rounding goes to the even integer at a half. *)
Theorem reading_time_monotone (w1 w2 : nat) :
  (w1 <= w2)%nat ->
  exists n1 n2,
    reading_minutes (Z.of_nat w1) = Return n1
    /\ reading_minutes (Z.of_nat w2) = Return n2
    /\ n1 <= n2
    /\ reading_time (Z.of_nat w1) = Return (of_int n1 ++ lit " min read")
    /\ reading_time (Z.of_nat w2) = Return (of_int n2 ++ lit " min read").
Proof.
  intros L.
  destruct (reading_minutes_returns (Z.of_nat w1) ltac:(lia)) as (n1 & E1 & _).
  destruct (reading_minutes_returns (Z.of_nat w2) ltac:(lia)) as (n2 & E2 & _).
  exists n1, n2. split; [exact E1|]. split; [exact E2|]. split.
  - apply (reading_minutes_mono (Z.of_nat w1) (Z.of_nat w2)); try assumption;
      lia.
  - split; apply reading_time_eq; assumption.
Qed.

Lemma reading_time_monotone_witness :
  exists n1 n2,
    reading_minutes (Z.of_nat 100) = Return n1
    /\ reading_minutes (Z.of_nat 300) = Return n2
    /\ n1 <= n2
    /\ reading_time (Z.of_nat 100) = Return (of_int n1 ++ lit " min read")
    /\ reading_time (Z.of_nat 300) = Return (of_int n2 ++ lit " min read").
Proof.
  apply (reading_time_monotone 100 300). apply Nat.leb_le. reflexivity.
Defined.

(** C8. When the body of a POST /analyze is not JSON, the exception
    of [get_json] is caught by the handler: the answer is 500 with
    "Failed to analyze article: <message>", not the 400 with
    "No URL provided" that a JSON object without a [url] member
    gets. *)
Theorem unparseable_body_is_500 (w w' : World) (e : pystr) :
  get_json w = Raise e ->
  url_field w' None ->
  analyze w = error_response (lit "Failed to analyze article: " ++ e) 500
  /\ analyze w' = error_response (lit "No URL provided") 400
  /\ analyze w <> error_response (lit "No URL provided") 400.
Proof.
  intros G U.
  assert (E : analyze w
              = error_response (lit "Failed to analyze article: " ++ e) 500)
    by (apply analyze_exception; left; exact G).
  split; [exact E|]. split; [apply analyze_no_url; left; exact U|].
  rewrite E. intros H. clash H.
Qed.

Lemma unparseable_body_is_500_witness :
  let w := Sample.with_body (Raise Sample.bad_request) in
  let w' := Sample.with_body (Return (JDict [])) in
  analyze w
  = error_response (lit "Failed to analyze article: " ++ Sample.bad_request)
      500
  /\ analyze w' = error_response (lit "No URL provided") 400
  /\ analyze w <> error_response (lit "No URL provided") 400.
Proof.
  apply (unparseable_body_is_500
           (Sample.with_body (Raise Sample.bad_request))
           (Sample.with_body (Return (JDict [])))
           Sample.bad_request).
  - reflexivity.
  - exists []. split; reflexivity.
Defined.

(** C9. A 200 response of [analyze_local] has a [word_count] of at
    least 1: the text passed the guard [text.strip()], so it is not
    blank and [text.split()] has a first word. *)
Theorem local_word_count_positive (w : World) :
  status (analyze_local w) = 200 ->
  exists t,
    sample_file w = Some (Return t)
    /\ field "word_count" (analyze_local w) = Some (JInt (len (split t)))
    /\ 1 <= len (split t).
Proof.
  intros S. destruct (analyze_local_ok_run w S) as (t & a & R).
  exists t. split; [apply R|].
  destruct (analyze_local_success w t a R) as (n & _ & _ & E).
  split; [rewrite E; reflexivity|].
  apply split_nonblank. apply R.
Qed.

Lemma local_word_count_positive_witness :
  exists t,
    sample_file Sample.world = Some (Return t)
    /\ field "word_count" (analyze_local Sample.world)
       = Some (JInt (len (split t)))
    /\ 1 <= len (split t).
Proof. exact (local_word_count_positive Sample.world sample_local_ok). Defined.

(** C10. In a 200 response of [analyze], the field [title] is the
    title of the article when that is not empty and "N/A" otherwise,
    and the field [summary] is the summary of the article when that is
    not empty and "N/A" otherwise. *)
Theorem title_and_summary_fallback (w : World) :
  status (analyze w) = 200 ->
  exists article analysis,
    analyze_run w article analysis
    /\ (Article.title article <> [] ->
        field "title" (analyze w) = Some (JStr (Article.title article)))
    /\ (Article.title article = [] ->
        field "title" (analyze w) = Some (JStr (lit "N/A")))
    /\ (Article.summary article <> [] ->
        field "summary" (analyze w) = Some (JStr (Article.summary article)))
    /\ (Article.summary article = [] ->
        field "summary" (analyze w) = Some (JStr (lit "N/A"))).
Proof.
  intros S. destruct (analyze_ok_run w S) as (art & a & R).
  exists art, a. split; [exact R|].
  destruct (analyze_success w art a R) as (n & _ & _ & E).
  rewrite E. unfold field. cbn [fst lookup].
  change (PyStr.eqb (lit "title") (lit "title")) with true.
  change (PyStr.eqb (lit "title") (lit "summary")) with false.
  change (PyStr.eqb (lit "author") (lit "summary")) with false.
  change (PyStr.eqb (lit "summary") (lit "summary")) with true.
  cbv iota.
  repeat split; intros H.
  - apply truthy_nonempty in H. rewrite H. reflexivity.
  - rewrite H. reflexivity.
  - apply truthy_nonempty in H. rewrite H. reflexivity.
  - rewrite H. reflexivity.
Qed.

Lemma title_and_summary_fallback_witness :
  exists article analysis,
    analyze_run Sample.world article analysis
    /\ (Article.title article <> [] ->
        field "title" (analyze Sample.world)
        = Some (JStr (Article.title article)))
    /\ (Article.title article = [] ->
        field "title" (analyze Sample.world) = Some (JStr (lit "N/A")))
    /\ (Article.summary article <> [] ->
        field "summary" (analyze Sample.world)
        = Some (JStr (Article.summary article)))
    /\ (Article.summary article = [] ->
        field "summary" (analyze Sample.world) = Some (JStr (lit "N/A"))).
Proof. exact (title_and_summary_fallback Sample.world sample_ok). Defined.

(** * Further properties *)

Import Nltk Shape Text Order.

(** ** Start-up: [ensure_nltk_resources] *)

Section EnsureNltk.

Variable store : Type.
Variable nltk : Data store.

Lemma finds_cons x effects :
  finds (x :: effects)
  = match x with Find p => p :: finds effects | _ => finds effects end.
Proof. destruct x; reflexivity. Qed.

Lemma downloads_cons x effects :
  downloads (x :: effects)
  = match x with
    | Download n => n :: downloads effects
    | _ => downloads effects
    end.
Proof. destruct x; reflexivity. Qed.

Lemma logs_cons x effects :
  logs (x :: effects)
  = match x with
    | Log l m => (l, m) :: logs effects
    | _ => logs effects
    end.
Proof. destruct x; reflexivity. Qed.

Ltac effects_cons :=
  cbn [app]; rewrite ?finds_cons, ?downloads_cons, ?logs_cons;
  cbv beta iota.

Lemma ensure_loop_returns items st :
  find_only_lookup_errors nltk ->
  download_only_exceptions nltk ->
  exists st' effects,
    ensure_loop nltk items st = (st', effects, Return tt)
    /\ finds effects = map snd items
    /\ List.length (logs effects)
       = (List.length items + List.length (downloads effects))%nat
    /\ incl (downloads effects) (map fst items)
    /\ (NoDup (map fst items) -> NoDup (downloads effects)).
Proof.
  intros F D. revert st.
  induction items as [|[name path] items IH]; intros st.
  - exists st, []. repeat split; try reflexivity.
    + intros x [].
    + intros _. constructor.
  - cbn [ensure_loop].
    destruct (find nltk path st) as [| |e] eqn:E; [| |destruct (F _ _ _ E)].
    + destruct (IH st) as (st' & eff & R & Fi & Lo & In' & Nd). rewrite R.
      eexists _, _. split; [reflexivity|].
      effects_cons. rewrite Fi. cbn [List.length map fst snd].
      repeat split; try reflexivity.
      * lia.
      * intros x Hx. right. apply In'. exact Hx.
      * intros N. apply Nd. inversion N; assumption.
    + pose proof (D name st) as Dn.
      destruct (download nltk name st) as [st1 d]. cbn [snd] in Dn.
      destruct (IH st1) as (st' & eff & R & Fi & Lo & In' & Nd). rewrite R.
      destruct d as [b|e|e]; [| |destruct (Dn e eq_refl)];
        (eexists _, _; split; [reflexivity|]);
        effects_cons; rewrite Fi;
        cbn [List.length map fst snd]; repeat split; try reflexivity;
        try lia;
        try (intros x [<-|Hx]; [left; reflexivity|right; auto]);
        intros N; inversion N as [|? ? Nin N']; constructor; auto.
Qed.

Lemma ensure_loop_all_found items st :
  (forall name path, In (name, path) items -> find nltk path st = Found) ->
  ensure_loop nltk items st = (st, flat_map found_effects items, Return tt).
Proof.
  induction items as [|[name path] items IH]; intros H; [reflexivity|].
  cbn [ensure_loop]. rewrite (H name path) by (left; reflexivity).
  rewrite IH by (intros n p I; apply (H n p); right; exact I).
  reflexivity.
Qed.

Lemma ensure_loop_keeps items st path :
  download_keeps nltk ->
  find nltk path st = Found ->
  find nltk path (fst (fst (ensure_loop nltk items st))) = Found.
Proof.
  intros K. revert st.
  induction items as [|[n p] items IH]; intros st Fo; [exact Fo|].
  cbn [ensure_loop]. destruct (find nltk p st) eqn:E.
  - specialize (IH st Fo).
    destruct (ensure_loop nltk items st) as [[st' eff] r]. exact IH.
  - pose proof (K n path st Fo) as Fo1.
    destruct (download nltk n st) as [st1 d]. cbn [fst] in Fo1.
    specialize (IH st1 Fo1).
    destruct (ensure_loop nltk items st1) as [[st' eff] r].
    destruct d; [exact IH|exact IH|exact Fo1].
  - exact Fo.
Qed.

Lemma ensure_loop_skips_found items st name :
  download_keeps nltk ->
  (forall path, In (name, path) items -> find nltk path st = Found) ->
  ~ In name (downloads (snd (fst (ensure_loop nltk items st)))).
Proof.
  intros K. revert st.
  induction items as [|[n p] items IH]; intros st H; [intros []|].
  cbn [ensure_loop]. destruct (find nltk p st) eqn:E.
  - specialize (IH st (fun path I => H path (or_intror I))).
    destruct (ensure_loop nltk items st) as [[st' eff] r].
    cbn [fst snd] in *. effects_cons. exact IH.
  - assert (N : n <> name).
    { intros ->. rewrite (H p) in E by (left; reflexivity). discriminate. }
    assert (H1 : forall path, In (name, path) items ->
                 find nltk path (fst (download nltk n st)) = Found)
      by (intros path I; apply K, H; right; exact I).
    destruct (download nltk n st) as [st1 d]. cbn [fst] in H1.
    specialize (IH st1 H1).
    destruct (ensure_loop nltk items st1) as [[st' eff] r].
    destruct d; cbn [fst snd] in *; effects_cons;
      intros [X|X]; auto.
  - intros [].
Qed.

Lemma ensure_loop_installs items st :
  find_only_lookup_errors nltk ->
  download_only_exceptions nltk ->
  download_keeps nltk ->
  (forall name path st, In (name, path) items ->
     find nltk path (fst (download nltk name st)) = Found) ->
  forall name path, In (name, path) items ->
    find nltk path (fst (fst (ensure_loop nltk items st))) = Found.
Proof.
  intros F D K. revert st.
  induction items as [|[n p] items IH]; intros st I name path X;
    [destruct X|destruct X as [X|X]].
  - injection X as -> ->. cbn [ensure_loop].
    destruct (find nltk path st) as [| |e] eqn:E; [| |destruct (F _ _ _ E)].
    + pose proof (ensure_loop_keeps items st path K E) as P.
      destruct (ensure_loop nltk items st) as [[st' eff] r]. exact P.
    + pose proof (I name path st (or_introl eq_refl)) as E1.
      destruct (download nltk name st) as [st1 d]. cbn [fst] in E1.
      pose proof (ensure_loop_keeps items st1 path K E1) as P.
      destruct (ensure_loop nltk items st1) as [[st' eff] r].
      destruct d; [exact P|exact P|exact E1].
  - assert (I' : forall name path st, In (name, path) items ->
                 find nltk path (fst (download nltk name st)) = Found)
      by (intros; apply I; right; assumption).
    cbn [ensure_loop].
    destruct (find nltk p st) as [| |e] eqn:E; [| |destruct (F _ _ _ E)].
    + pose proof (IH st I' name path X) as P.
      destruct (ensure_loop nltk items st) as [[st' eff] r]. exact P.
    + pose proof (D n st) as Dn.
      destruct (download nltk n st) as [st1 d]. cbn [snd] in Dn.
      pose proof (IH st1 I' name path X) as P.
      destruct (ensure_loop nltk items st1) as [[st' eff] r].
      destruct d as [b|e|e]; [exact P|exact P|destruct (Dn e eq_refl)].
Qed.

Lemma left_at_later name path st' effects e x y :
  left_at nltk name path st' effects e ->
  left_at nltk name path st' (x ++ y :: effects) e.
Proof.
  intros [before [[Fe Eq]|(st0 & Fl & Dn & Eq)]];
    exists (x ++ y :: before); [left|right].
  - split; [exact Fe|]. rewrite Eq, <- app_assoc. reflexivity.
  - exists st0. split; [exact Fl|]. split; [exact Dn|].
    rewrite Eq, <- app_assoc. reflexivity.
Qed.

Lemma ensure_loop_raises items st st' effects e :
  ensure_loop nltk items st = (st', effects, Raise e) ->
  exists name path,
    In (name, path) items
    /\ left_at nltk name path st' effects e
    /\ exists rest, map snd items = finds effects ++ rest.
Proof.
  revert st st' effects.
  induction items as [|[n p] items IH]; intros st st' effects R;
    [discriminate R|].
  cbn [ensure_loop] in R. destruct (find nltk p st) as [| |x] eqn:E.
  - destruct (ensure_loop nltk items st) as [[st2 eff] r] eqn:L.
    injection R as <- <- ->.
    destruct (IH _ _ _ L) as (name & path & I & La & rest & M).
    exists name, path. split; [right; exact I|]. split.
    + apply (left_at_later name path st2 eff e [Find p]). exact La.
    + exists rest. effects_cons. cbn [map snd]. rewrite M. reflexivity.
  - destruct (download nltk n st) as [st1 d] eqn:Dn. destruct d as [b|x|x].
    + destruct (ensure_loop nltk items st1) as [[st2 eff] r] eqn:L.
      injection R as <- <- ->.
      destruct (IH _ _ _ L) as (name & path & I & La & rest & M).
      exists name, path. split; [right; exact I|]. split.
      * apply (left_at_later name path st2 eff e [Find p; _; _]). exact La.
      * exists rest. effects_cons. cbn [map snd]. rewrite M. reflexivity.
    + destruct (ensure_loop nltk items st1) as [[st2 eff] r] eqn:L.
      injection R as <- <- ->.
      destruct (IH _ _ _ L) as (name & path & I & La & rest & M).
      exists name, path. split; [right; exact I|]. split.
      * apply (left_at_later name path st2 eff e [Find p; _; _]). exact La.
      * exists rest. effects_cons. cbn [map snd]. rewrite M. reflexivity.
    + injection R as <- <- <-.
      exists n, p. split; [left; reflexivity|]. split.
      * exists []. right. exists st. auto.
      * exists (map snd items). reflexivity.
  - injection R as <- <- <-.
    exists n, p. split; [left; reflexivity|]. split.
    + exists []. left. auto.
    + exists (map snd items). reflexivity.
Qed.

End EnsureNltk.

Section EnsureNltkResult.

Variable store : Type.
Variables nltk1 nltk2 : Data store.

Lemma ensure_loop_same_but_result items st :
  same_but_result nltk1 nltk2 ->
  ensure_loop nltk1 items st = ensure_loop nltk2 items st.
Proof.
  intros [Fi Do]. revert st.
  induction items as [|[n p] items IH]; intros st; [reflexivity|].
  cbn [ensure_loop]. rewrite <- Fi.
  destruct (find nltk1 p st); [rewrite IH; reflexivity| |reflexivity].
  destruct (Do n st) as [S R].
  destruct (download nltk1 n st) as [s1 d1].
  destruct (download nltk2 n st) as [s2 d2].
  cbn [fst snd] in S, R. subst s2. rewrite IH.
  destruct d1, d2; try contradiction; subst; reflexivity.
Qed.

End EnsureNltkResult.

(** ** The sample data directories *)

Section SampleNltk.

Lemma names_distinct : NoDup (map fst resources).
Proof.
  repeat constructor; cbv; intuition discriminate.
Qed.

Lemma same_name_same_path name path path' :
  In (name, path) resources -> In (name, path') resources -> path = path'.
Proof.
  pose proof names_distinct as N. revert N.
  generalize resources as l.
  induction l as [|[n p] l IH]; intros N I I'; [destruct I|].
  inversion N as [|? ? Nin N']; subst.
  destruct I as [I|I], I' as [I'|I'].
  - congruence.
  - injection I as -> ->. exfalso. apply Nin.
    apply (in_map fst) in I'. exact I'.
  - injection I' as -> ->. exfalso. apply Nin.
    apply (in_map fst) in I. exact I.
  - exact (IH N' I I').
Qed.

Lemma online_finds : find_only_lookup_errors online.
Proof. intros path st e. cbn. destruct (holds st path); discriminate. Qed.

Lemma broken_finds : find_only_lookup_errors broken.
Proof. exact online_finds. Qed.

Lemma online_downloads : download_only_exceptions online.
Proof.
  intros name st e. cbn [online download].
  destruct (path_of resources name); discriminate.
Qed.

Lemma broken_downloads : download_only_exceptions broken.
Proof. intros name st e. discriminate. Qed.

Lemma pystr_eqb_refl s : PyStr.eqb s s = true.
Proof.
  unfold PyStr.eqb. destruct (list_eq_dec N.eq_dec s s); congruence.
Qed.

Lemma online_keeps : download_keeps online.
Proof.
  intros name path st. cbn [online find download].
  destruct (path_of resources name); cbn [fst]; [|intros H; exact H].
  unfold holds. cbn [existsb].
  destruct (existsb (PyStr.eqb path) st); [|discriminate].
  rewrite orb_true_r. reflexivity.
Qed.

Lemma path_of_in items name path :
  NoDup (map fst items) -> In (name, path) items ->
  path_of items name = Some path.
Proof.
  induction items as [|[n p] items IH]; intros N I; [destruct I|].
  inversion N as [|? ? Nin N']; subst. cbn [path_of].
  destruct I as [I|I].
  - injection I as -> ->. rewrite pystr_eqb_refl. reflexivity.
  - unfold PyStr.eqb. destruct (list_eq_dec N.eq_dec n name) as [->|_].
    + exfalso. apply Nin. apply (in_map fst) in I. exact I.
    + exact (IH N' I).
Qed.

Lemma online_installs : download_installs online.
Proof.
  intros name path st I. cbn [online find download].
  rewrite (path_of_in resources name path names_distinct I). cbn [fst].
  unfold holds. cbn [existsb]. rewrite pystr_eqb_refl. reflexivity.
Qed.

End SampleNltk.

(** ** Start-up: what [ensure_nltk_resources] guarantees *)

(** X1. When [nltk.data.find] raises nothing but LookupError and
    [nltk.download] raises nothing outside the class Exception (no
    KeyboardInterrupt, no SystemExit), [ensure_nltk_resources]
    returns, whether [nltk.download] returns or raises (line 35
    catches what it raises): it has looked for all five paths, in the
    order of the dictionary, has logged one record per resource and
    one more per download, and has downloaded no name twice and none
    outside the dictionary. *)
Theorem ensure_checks_every_resource
    (store : Type) (nltk : Data store) (st : store) :
  find_only_lookup_errors nltk ->
  download_only_exceptions nltk ->
  exists st' effects,
    ensure_nltk_resources nltk st = (st', effects, Return tt)
    /\ finds effects = map snd resources
    /\ List.length (logs effects) = (5 + List.length (downloads effects))%nat
    /\ incl (downloads effects) (map fst resources)
    /\ NoDup (downloads effects).
Proof.
  intros F D.
  destruct (ensure_loop_returns store nltk resources st F D)
    as (st' & eff & R & Fi & Lo & In' & Nd).
  exists st', eff. split; [exact R|]. split; [exact Fi|].
  split; [exact Lo|]. split; [exact In'|]. exact (Nd names_distinct).
Qed.

Lemma ensure_checks_every_resource_witness :
  exists st' effects,
    ensure_nltk_resources broken [] = (st', effects, Return tt)
    /\ finds effects = map snd resources
    /\ List.length (logs effects) = (5 + List.length (downloads effects))%nat
    /\ incl (downloads effects) (map fst resources)
    /\ NoDup (downloads effects).
Proof.
  exact (ensure_checks_every_resource (list pystr) broken []
           broken_finds broken_downloads).
Defined.

(** X2. A resource that [nltk.data.find] finds is not downloaded
    (when no download removes what was found). *)
Theorem found_resource_is_not_downloaded
    (store : Type) (nltk : Data store) (st : store) (name path : pystr) :
  download_keeps nltk ->
  In (name, path) resources ->
  find nltk path st = Found ->
  ~ In name (downloads (snd (fst (ensure_nltk_resources nltk st)))).
Proof.
  intros K I Fo. apply ensure_loop_skips_found; [exact K|].
  intros path' I'. rewrite <- (same_name_same_path name path path' I I').
  exact Fo.
Qed.

Lemma found_resource_is_not_downloaded_witness :
  ~ In (lit "punkt")
       (downloads (snd (fst (ensure_nltk_resources online
                               [lit "tokenizers/punkt"])))).
Proof.
  apply (found_resource_is_not_downloaded (list pystr) online
           [lit "tokenizers/punkt"] (lit "punkt") (lit "tokenizers/punkt")
           online_keeps).
  - left. reflexivity.
  - reflexivity.
Defined.

(** X3. When [nltk.data.find] raises nothing but LookupError, and
    [nltk.download] raises nothing outside the class Exception,
    installs the listed resource it is asked for and removes nothing
    that was found, every listed resource is found after
    [ensure_nltk_resources]; calling it again then changes nothing
    and downloads nothing: it only logs the five "found" records. *)
Theorem ensure_installs_and_settles
    (store : Type) (nltk : Data store) (st : store) :
  find_only_lookup_errors nltk ->
  download_only_exceptions nltk ->
  download_keeps nltk ->
  download_installs nltk ->
  exists st' effects,
    ensure_nltk_resources nltk st = (st', effects, Return tt)
    /\ (forall name path, In (name, path) resources ->
          find nltk path st' = Found)
    /\ ensure_nltk_resources nltk st'
       = (st', flat_map found_effects resources, Return tt).
Proof.
  intros F D K I.
  destruct (ensure_loop_returns store nltk resources st F D)
    as (st' & eff & R & _).
  pose proof (ensure_loop_installs store nltk resources st F D K
                (fun n p s H => I n p s H)) as A.
  unfold ensure_nltk_resources. rewrite R in *. cbn [fst] in A.
  exists st', eff. split; [reflexivity|]. split; [exact A|].
  apply ensure_loop_all_found. exact A.
Qed.

Lemma ensure_installs_and_settles_witness :
  exists st' effects,
    ensure_nltk_resources online [] = (st', effects, Return tt)
    /\ (forall name path, In (name, path) resources ->
          find online path st' = Found)
    /\ ensure_nltk_resources online st'
       = (st', flat_map found_effects resources, Return tt).
Proof.
  exact (ensure_installs_and_settles (list pystr) online []
           online_finds online_downloads online_keeps online_installs).
Defined.

(** X4. The value [nltk.download] returns is not looked at: a
    download that returns [False] leaves the same store, effects and
    log ("Downloaded NLTK resource: ...") as one that returns
    [True]. *)
Theorem download_result_is_ignored
    (store : Type) (nltk : Data store) (b : bool) (st : store) :
  ensure_nltk_resources (with_result b nltk) st
  = ensure_nltk_resources nltk st.
Proof.
  apply ensure_loop_same_but_result. split; [reflexivity|].
  intros name s. cbn. split; [reflexivity|].
  destruct (snd (download nltk name s)); [exact I|reflexivity|reflexivity].
Qed.

(** X5. [ensure_nltk_resources] raises only what it does not catch:
    an exception of [nltk.data.find] that is not a LookupError, or an
    exception of [nltk.download] that is outside the class Exception
    (KeyboardInterrupt, SystemExit).  The loop stopped at that call:
    the effects end with it (after the "not found" record, for a
    download), the paths looked for are a prefix of the list, and the
    store is as the downloads so far left it. *)
Theorem ensure_raises_what_it_does_not_catch
    (store : Type) (nltk : Data store) (st st' : store)
    (effects : list effect) (e : pystr) :
  ensure_nltk_resources nltk st = (st', effects, Raise e) ->
  exists name path before,
    In (name, path) resources
    /\ ((find nltk path st' = OtherError e
         /\ effects = before ++ [Find path])
        \/ (exists st0,
              find nltk path st0 = LookupError
              /\ download nltk name st0 = (st', Interrupted e)
              /\ effects
                 = before
                   ++ [Find path;
                       Log INFO (lit "NLTK resource not found: " ++ path
                                   ++ lit ". Downloading '" ++ name
                                   ++ lit "'...");
                       Download name]))
    /\ exists rest, map snd resources = finds effects ++ rest.
Proof.
  intros R.
  destruct (ensure_loop_raises store nltk resources st st' effects e R)
    as (name & path & I & [before La] & P).
  exists name, path, before. auto.
Qed.

Lemma ensure_raises_what_it_does_not_catch_witness :
  let effects :=
    [Find (lit "tokenizers/punkt");
     Log INFO (lit "NLTK resource not found: tokenizers/punkt. "
                 ++ lit "Downloading 'punkt'...");
     Download (lit "punkt")] in
  let e := lit "KeyboardInterrupt" in
  exists name path before,
    In (name, path) resources
    /\ ((find interrupted path [] = OtherError e
         /\ effects = before ++ [Find path])
        \/ (exists st0,
              find interrupted path st0 = LookupError
              /\ download interrupted name st0 = ([], Interrupted e)
              /\ effects
                 = before
                   ++ [Find path;
                       Log INFO (lit "NLTK resource not found: " ++ path
                                   ++ lit ". Downloading '" ++ name
                                   ++ lit "'...");
                       Download name]))
    /\ exists rest, map snd resources = finds effects ++ rest.
Proof.
  exact (ensure_raises_what_it_does_not_catch (list pystr) interrupted [] []
           _ (lit "KeyboardInterrupt") eq_refl).
Defined.

Example unreadable_raises_at_first_find :
  ensure_nltk_resources unreadable []
  = ([], [Find (lit "tokenizers/punkt")], Raise (lit "Permission denied")).
Proof. reflexivity. Qed.

Example interrupted_download_is_not_logged :
  let '(st, effects, r) := ensure_nltk_resources interrupted [] in
  r = Raise (lit "KeyboardInterrupt")
  /\ downloads effects = [lit "punkt"]
  /\ Forall (fun x => fst x <> WARNING) (logs effects)
  /\ List.length (logs effects) = 1%nat.
Proof.
  vm_compute. repeat split; auto.
  repeat constructor; discriminate.
Qed.

Example broken_logs_warnings :
  let '(st, effects, r) := ensure_nltk_resources broken [] in
  st = [] /\ r = Return tt
  /\ In (WARNING,
         lit "Failed to download NLTK resource 'punkt': "
           ++ lit "HTTP Error 403: Forbidden") (logs effects)
  /\ List.length (downloads effects) = 5%nat.
Proof.
  vm_compute. repeat split; auto.
Qed.

Example offline_logs_downloaded :
  let '(st, effects, r) := ensure_nltk_resources offline [] in
  st = [] /\ r = Return tt
  /\ In (INFO, lit "Downloaded NLTK resource: punkt") (logs effects)
  /\ Forall (fun x => fst x <> WARNING) (logs effects).
Proof.
  vm_compute. repeat split; auto.
  repeat constructor; discriminate.
Qed.

(** ** Words *)

Section Words.

Lemma forallb_rev {A : Type} (f : A -> bool) l :
  forallb f (rev l) = forallb f l.
Proof.
  induction l as [|x l IH]; cbn; [reflexivity|].
  rewrite forallb_app, IH. cbn. rewrite andb_true_r. apply andb_comm.
Qed.

Lemma split_from_words cur s :
  forallb nonspace cur = true ->
  Forall (fun wd => wd <> [] /\ forallb nonspace wd = true)
         (split_from cur s)
  /\ List.concat (split_from cur s) = rev cur ++ filter nonspace s.
Proof.
  revert cur.
  induction s as [|c s IH]; intros cur C; cbn [split_from filter].
  - destruct cur as [|x cur].
    + split; [constructor|reflexivity].
    + split.
      * constructor; [|constructor]. split.
        -- intros E. apply (f_equal (@List.length _)) in E.
           rewrite length_rev in E. discriminate E.
        -- rewrite forallb_rev. exact C.
      * cbn [List.concat]. rewrite !app_nil_r. reflexivity.
  - pose proof (eq_refl : nonspace c = negb (isspace c)) as Nc.
    destruct (isspace c) eqn:Sp; cbn [negb] in Nc; rewrite Nc.
    + destruct (IH [] eq_refl) as [F E]. destruct cur as [|x cur].
      * split; [exact F|]. rewrite E. reflexivity.
      * split.
        -- constructor; [|exact F]. split.
           ++ intros X. apply (f_equal (@List.length _)) in X.
              rewrite length_rev in X. discriminate X.
           ++ rewrite forallb_rev. exact C.
        -- cbn [List.concat]. rewrite E. reflexivity.
    + assert (C' : forallb nonspace (c :: cur) = true).
      { cbn [forallb]. rewrite Nc. exact C. }
      destruct (IH (c :: cur) C') as [F E]. split; [exact F|].
      rewrite E. cbn [rev]. rewrite <- app_assoc. reflexivity.
Qed.

Lemma split_from_count cur s :
  2 * len (split_from cur s)
  <= len s + match cur with [] => 1 | _ => 2 end.
Proof.
  unfold len. revert cur.
  induction s as [|c s IH]; intros cur; cbn [split_from].
  - destruct cur; cbn [List.length]; lia.
  - destruct (isspace c).
    + specialize (IH []). destruct cur; cbn [List.length] in *; lia.
    + specialize (IH (c :: cur)). destruct cur; cbn [List.length] in *; lia.
Qed.

End Words.

(** ** More on the two handlers *)

Section Handlers.

Lemma split_count_zero s : len (split s) = 0 <-> blank s = true.
Proof.
  unfold split, len. split.
  - intros E. destruct (split_from [] s) eqn:X; [|discriminate E].
    apply split_from_nil in X. apply X.
  - intros B. replace (split_from [] s) with (@nil pystr); [reflexivity|].
    symmetry. apply split_from_nil. auto.
Qed.

Lemma ltb_finite_iff s mc ec :
  ltb s (S754_finite false mc ec) = true <-> below s mc ec.
Proof.
  unfold ltb, SFltb, below.
  destruct s as [z|sg| |sg m e]; cbv beta iota delta [SFcompare].
  - tauto.
  - destruct sg; split; congruence.
  - split; [discriminate|tauto].
  - destruct sg; [tauto|]. rewrite compare_cont_eq.
    destruct (Z.compare_spec e ec) as [E|L|G].
    + destruct (Z.compare_spec (Zpos m) (Zpos mc)) as [Em|Lm|Gm]; split;
        intros X; try discriminate X; try reflexivity; try lia.
    + split; [lia|reflexivity].
    + split; [discriminate|lia].
Qed.

Lemma below_leb s1 s2 mc ec :
  leb s1 s2 = true -> below s2 mc ec -> below s1 mc ec.
Proof.
  unfold leb, SFleb, below.
  destruct s1 as [z1|g1| |g1 m1 e1], s2 as [z2|g2| |g2 m2 e2];
    cbv beta iota delta [SFcompare];
    repeat match goal with b : bool |- _ => destruct b end;
    try tauto; try discriminate; try (intros; congruence).
  rewrite compare_cont_eq.
  destruct (Z.compare_spec e1 e2) as [E|L|G]; try discriminate.
  - destruct (Z.compare_spec (Zpos m1) (Zpos m2)); try discriminate; lia.
  - lia.
Qed.

Lemma ltb_0_3_0_5 s : ltb s lit_0_3 = true -> ltb s lit_0_5 = true.
Proof.
  rewrite lit_0_3_eq, lit_0_5_eq, !ltb_finite_iff. unfold below.
  destruct s as [z|sg| |[] m e]; try tauto. lia.
Qed.

Lemma ltb_0_5_0_7 s : ltb s lit_0_5 = true -> ltb s lit_0_7 = true.
Proof.
  rewrite lit_0_5_eq, lit_0_7_eq, !ltb_finite_iff. unfold below.
  destruct s as [z|sg| |[] m e]; try tauto. lia.
Qed.

Lemma zero_min_read : of_int 0 ++ lit " min read" = lit "0 min read".
Proof. reflexivity. Qed.

End Handlers.

(** X6. A 200 response of [analyze] can count no word: its guard is
    on the emptiness of the text, not on [strip()], so a text of
    white space passes; [word_count] is 0 exactly for such a text, and
    the reading time is then "0 min read". *)
Theorem analyze_counts_no_word_in_blank_text (w : World) :
  status (analyze w) = 200 ->
  exists article analysis,
    analyze_run w article analysis
    /\ field "word_count" (analyze w)
       = Some (JInt (len (split (Article.text article))))
    /\ (len (split (Article.text article)) = 0
        <-> blank (Article.text article) = true)
    /\ (blank (Article.text article) = true ->
        field "reading_time" (analyze w) = Some (JStr (lit "0 min read"))).
Proof.
  intros S. destruct (analyze_ok_run w S) as (art & a & R).
  exists art, a. split; [exact R|].
  destruct (analyze_success w art a R) as (n & M & _ & E).
  split; [rewrite E; reflexivity|]. split; [apply split_count_zero|].
  intros B. apply split_count_zero in B. rewrite B in M.
  rewrite reading_minutes_zero in M. injection M as <-.
  rewrite E. reflexivity.
Qed.

Lemma white_space_article_ok :
  status (analyze (Sample.with_article
                     (Return {| Article.title := [];
                                Article.authors := [];
                                Article.text := [32%N; 10%N];
                                Article.summary := [] |}))) = 200.
Proof. vm_compute. reflexivity. Defined.

Lemma analyze_counts_no_word_in_blank_text_witness :
  let w := Sample.with_article
             (Return {| Article.title := [];
                        Article.authors := [];
                        Article.text := [32%N; 10%N];
                        Article.summary := [] |}) in
  exists article analysis,
    analyze_run w article analysis
    /\ field "word_count" (analyze w)
       = Some (JInt (len (split (Article.text article))))
    /\ (len (split (Article.text article)) = 0
        <-> blank (Article.text article) = true)
    /\ (blank (Article.text article) = true ->
        field "reading_time" (analyze w) = Some (JStr (lit "0 min read"))).
Proof.
  exact (analyze_counts_no_word_in_blank_text _ white_space_article_ok).
Defined.

(** X7. The two labels taken from the subjectivity never contradict
    each other: a response with bias "Low" has credibility "True", and
    one with bias "High" has credibility "False" (for every
    subjectivity, NaN included). *)
Theorem bias_and_credibility_agree
    (w : World) (analysis : TextBlob.t) (r : response) :
  analysed w analysis r ->
  (field "bias" r = Some (JStr (lit "Low")) ->
   field "credibility" r = Some (JStr (lit "True")))
  /\ (field "bias" r = Some (JStr (lit "High")) ->
      field "credibility" r = Some (JStr (lit "False"))).
Proof.
  intros A.
  destruct (analysed_fields w analysis r A) as (_ & _ & _ & B & C).
  rewrite B, C, !some_str_inj.
  destruct (bias_cases (TextBlob.subjectivity analysis)) as (Lo & _ & Hi).
  destruct (credibility_cases (TextBlob.subjectivity analysis)) as (T & F).
  split; intros H.
  - apply T, ltb_0_3_0_5, Lo, H.
  - apply F. apply Hi in H. destruct H as [_ H7].
    destruct (ltb (TextBlob.subjectivity analysis) lit_0_5) eqn:X;
      [|reflexivity].
    apply ltb_0_5_0_7 in X. congruence.
Qed.

Lemma bias_and_credibility_agree_witness :
  let r := analyze Sample.world in
  (field "bias" r = Some (JStr (lit "Low")) ->
   field "credibility" r = Some (JStr (lit "True")))
  /\ (field "bias" r = Some (JStr (lit "High")) ->
      field "credibility" r = Some (JStr (lit "False"))).
Proof.
  exact (bias_and_credibility_agree Sample.world Sample.score
           (analyze Sample.world) sample_analysed).
Defined.

(** X8. As its docstring says, [analyze_local] returns the same
    analysis as [analyze], on these conditions: the request gives a
    url, the article is fetched without an exception, its text is the
    text of the sample file, and that text is not blank.  The two
    handlers then answer with the same status, 200 or (when
    [TextBlob] raises) 500, and their responses agree on sentiment,
    polarity, bias, credibility, word_count and reading_time.  On a
    blank text they differ: [analyze_local] answers 400 "sample
    article is empty", while [analyze] answers 400 only when the text
    is empty, and analyses a text of white space (200 with
    word_count 0, when [TextBlob] returns). *)
Theorem analyze_local_same_analysis
    (w : World) (url : json) (article : Article.t) :
  url_given w url ->
  fetch_article w url = Return article ->
  sample_file w = Some (Return (Article.text article)) ->
  let text := Article.text article in
  (blank text = false ->
   status (analyze w) = status (analyze_local w)
   /\ (status (analyze w) = 200 \/ status (analyze w) = 500)
   /\ forall k, In k derived_keys ->
        field k (analyze w) = field k (analyze_local w))
  /\ (blank text = true ->
      analyze_local w = error_response (lit "sample article is empty") 400
      /\ (text = [] ->
          analyze w
          = error_response (lit "Unable to fetch article content") 400)
      /\ (text <> [] ->
          forall analysis, text_blob w text = Return analysis ->
            status (analyze w) = 200
            /\ field "word_count" (analyze w) = Some (JInt 0))).
Proof.
  intros U F S text. split.
  - intros B.
    assert (N : text <> []) by (intros E; rewrite E in B; discriminate B).
    destruct (text_blob w text) as [a|e] eqn:T.
    + assert (R : analyze_run w article a) by (exists url; auto).
      assert (R' : analyze_local_run w text a) by (repeat split; auto).
      destruct (analyze_success w article a R) as (n & M & _ & E).
      destruct (analyze_local_success w text a R') as (n' & M' & _ & E').
      fold text in M. assert (n = n') by congruence. subst n'.
      rewrite E, E'. fold text.
      split; [reflexivity|]. split; [left; reflexivity|].
      intros k K.
      repeat (destruct K as [<-|K]; [reflexivity|]). destruct K.
    + assert (R : analyze_raises w e).
      { right. right. right. exists url, article. auto. }
      assert (R' : analyze_local_raises w e).
      { right. exists text. auto. }
      rewrite (analyze_exception w e R), (analyze_local_exception w e R').
      split; [reflexivity|]. split; [right; reflexivity|].
      intros k K.
      repeat (destruct K as [<-|K]; [reflexivity|]). destruct K.
  - intros B. split; [exact (analyze_local_blank w text S B)|]. split.
    + intros E. exact (analyze_empty_text w url article U F E).
    + intros N a T.
      assert (R : analyze_run w article a) by (exists url; auto).
      destruct (analyze_success w article a R) as (n & _ & _ & E).
      rewrite E. split; [reflexivity|].
      fold text. apply split_count_zero in B.
      unfold field. cbn [fst lookup]. rewrite B. reflexivity.
Qed.

Lemma sample_url_given :
  url_given Sample.world (JStr (lit "https://example.org/a")).
Proof.
  split; [|reflexivity]. eexists. split; reflexivity.
Qed.

Lemma analyze_local_same_analysis_witness :
  let w := Sample.world in
  let text := Article.text Sample.article in
  (blank text = false ->
   status (analyze w) = status (analyze_local w)
   /\ (status (analyze w) = 200 \/ status (analyze w) = 500)
   /\ forall k, In k derived_keys ->
        field k (analyze w) = field k (analyze_local w))
  /\ (blank text = true ->
      analyze_local w = error_response (lit "sample article is empty") 400
      /\ (text = [] ->
          analyze w
          = error_response (lit "Unable to fetch article content") 400)
      /\ (text <> [] ->
          forall analysis, text_blob w text = Return analysis ->
            status (analyze w) = 200
            /\ field "word_count" (analyze w) = Some (JInt 0))).
Proof.
  exact (analyze_local_same_analysis Sample.world
           (JStr (lit "https://example.org/a")) Sample.article
           sample_url_given eq_refl eq_refl).
Defined.

(** X9. Every response of the two handlers is an analysis with status
    200 and exactly the nine keys of the source, each once (in no
    particular order: a JSON object has none), or an error with
    status 400 or 500 and the single key [error]. *)
Theorem responses_are_well_shaped (w : World) :
  well_shaped (analyze w) /\ well_shaped (analyze_local w).
Proof.
  split.
  - destruct (analyze_ways w)
      as [N | [(url & art & U & F & X) | [(e & R) | (art & a & R)]]].
    + rewrite (analyze_no_url w N). right. split; [left|]; reflexivity.
    + rewrite (analyze_empty_text w url art U F X).
      right. split; [left|]; reflexivity.
    + rewrite (analyze_exception w e R). right. split; [right|]; reflexivity.
    + destruct (analyze_success w art a R) as (n & _ & _ & E).
      rewrite E. left. split; [reflexivity|].
      exact (Permutation_refl analysis_keys).
  - destruct (analyze_local_ways w)
      as [N | [(text & E & B) | [(e & R) | (text & a & R)]]].
    + rewrite (analyze_local_absent w N). right. split; [left|]; reflexivity.
    + rewrite (analyze_local_blank w text E B).
      right. split; [left|]; reflexivity.
    + rewrite (analyze_local_exception w e R).
      right. split; [right|]; reflexivity.
    + destruct (analyze_local_success w text a R) as (n & _ & _ & E).
      rewrite E. left. split; [reflexivity|].
      exact (Permutation_refl analysis_keys).
Qed.

Section Join.

Lemma join_length sep (x : pystr) l :
  List.length (join sep (x :: l))
  = (list_sum (map (@List.length pychar) (x :: l))
     + List.length sep * List.length l)%nat.
Proof.
  revert x. induction l as [|y l IH]; intros x.
  - unfold list_sum. cbn [join map fold_right List.length]. lia.
  - change (join sep (x :: y :: l)) with (x ++ sep ++ join sep (y :: l)).
    rewrite !length_app, IH. unfold list_sum.
    cbn [map fold_right List.length]. lia.
Qed.

End Join.

(** X10. In a 200 response of [analyze] the field [author] is "N/A"
    when the article has no author, and otherwise the authors joined
    by ", ": a single author as it is (an empty name included, which
    is not replaced by "N/A"), and in general a text as long as the
    names together plus two characters between neighbours. *)
Theorem author_field (w : World) :
  status (analyze w) = 200 ->
  exists article analysis,
    analyze_run w article analysis
    /\ (Article.authors article = [] ->
        field "author" (analyze w) = Some (JStr (lit "N/A")))
    /\ (forall a, Article.authors article = [a] ->
        field "author" (analyze w) = Some (JStr a))
    /\ (forall a rest, Article.authors article = a :: rest ->
        exists joined,
          field "author" (analyze w) = Some (JStr joined)
          /\ joined = join (lit ", ") (a :: rest)
          /\ List.length joined
             = (list_sum (map (@List.length pychar) (a :: rest))
                + 2 * List.length rest)%nat).
Proof.
  intros S. destruct (analyze_ok_run w S) as (art & a & R).
  exists art, a. split; [exact R|].
  destruct (analyze_success w art a R) as (n & _ & _ & E).
  rewrite E. unfold field. cbn [fst lookup].
  change (PyStr.eqb (lit "title") (lit "author")) with false.
  change (PyStr.eqb (lit "author") (lit "author")) with true.
  cbv iota. split; [|split].
  - intros ->. reflexivity.
  - intros x ->. reflexivity.
  - intros x rest ->. eexists. split; [reflexivity|]. split; [reflexivity|].
    apply join_length.
Qed.

Lemma author_field_witness :
  exists article analysis,
    analyze_run Sample.world article analysis
    /\ (Article.authors article = [] ->
        field "author" (analyze Sample.world) = Some (JStr (lit "N/A")))
    /\ (forall a, Article.authors article = [a] ->
        field "author" (analyze Sample.world) = Some (JStr a))
    /\ (forall a rest, Article.authors article = a :: rest ->
        exists joined,
          field "author" (analyze Sample.world) = Some (JStr joined)
          /\ joined = join (lit ", ") (a :: rest)
          /\ List.length joined
             = (list_sum (map (@List.length pychar) (a :: rest))
                + 2 * List.length rest)%nat).
Proof. exact (author_field Sample.world sample_ok). Defined.

(** X11. Below [200 * 2^46] words, the minutes of the reading time
    are within half a minute of [word_count / 200]:
    [200 * n - 100 <= word_count <= 200 * n + 100].  They are 0
    exactly up to 100 words (so "0 min read" is what a short text
    gets), and [word_count / 200] when 200 divides the count. *)
Theorem reading_minutes_within_half_a_minute (word_count : Z) :
  0 <= word_count < 200 * 2 ^ 46 ->
  exists n,
    reading_minutes word_count = Return n
    /\ 200 * n - 100 <= word_count <= 200 * n + 100
    /\ (n = 0 <-> word_count <= 100)
    /\ (word_count mod 200 = 0 -> n = word_count / 200).
Proof.
  intros B. exists (round_half_even word_count 200).
  split; [apply reading_minutes_exact; exact B|].
  pose proof (round_half_even_bounds word_count 200 ltac:(lia)) as [L U].
  split; [lia|]. split; [split|].
  - lia.
  - intros H. destruct (Z.eq_dec word_count 100) as [->|N]; [reflexivity|].
    lia.
  - intros D. apply round_half_even_unique; [lia|].
    pose proof (Z.div_mod word_count 200 ltac:(lia)). lia.
Qed.

Lemma reading_minutes_within_half_a_minute_witness :
  exists n,
    reading_minutes 100 = Return n
    /\ 200 * n - 100 <= 100 <= 200 * n + 100
    /\ (n = 0 <-> 100 <= 100)
    /\ (100 mod 200 = 0 -> n = 100 / 200).
Proof.
  apply (reading_minutes_within_half_a_minute 100).
  split; [apply Z.leb_le | apply Z.ltb_lt]; reflexivity.
Defined.

Section Hundredths.

Lemma valid_significand s m e :
  valid_binary 53 1024 (S754_finite s m e) = true -> Zpos m < 2 ^ 53.
Proof.
  cbn [valid_binary]. unfold bounded, canonical_mantissa, fexp, emin.
  intros V. apply andb_prop in V. destruct V as [C _].
  apply Z.eqb_eq in C. rewrite digits2_pos_log2 in C.
  apply Z.log2_lt_pow2; lia.
Qed.

Lemma hundredths_of_small m e :
  Zpos m < 2 ^ 53 ->
  e < -52 \/ (e = -52 /\ Zpos m <= 2 ^ 52) ->
  0 <= round_of_parts (Zpos m * 100, e) <= 100.
Proof.
  intros M S. split; [apply round_of_parts_nonneg; lia|].
  unfold round_of_parts, round_frac, shift_frac. cbn [fst snd].
  assert (P : pow2p e = 1)
    by (unfold pow2p; rewrite Z.max_l by lia; reflexivity).
  assert (Q : Zpos m <= pow2p (- e)).
  { unfold pow2p. rewrite Z.max_r by lia. destruct S as [S|[-> S]].
    - assert (2 ^ 53 <= 2 ^ (- e)) by (apply Z.pow_le_mono_r; lia). lia.
    - exact S. }
  rewrite P, Z.mul_1_r, Z.mul_1_l.
  change 100 with (round_half_even 100 1) at 2.
  pose proof (pow2p_pos (- e)).
  apply round_half_even_mono; lia.
Qed.

Lemma int_truediv_of_sign (s : bool) n :
  0 < n -> float_of_ratio s n 100 = int_truediv (if s then - n else n) 100.
Proof.
  intros N. unfold int_truediv. destruct s.
  - destruct (Z.ltb_spec (- n) 0); [|lia].
    rewrite Z.abs_neq by lia. rewrite Z.opp_involutive. reflexivity.
  - destruct (Z.ltb_spec n 0); [lia|]. rewrite Z.abs_eq by lia. reflexivity.
Qed.

End Hundredths.

(** X12. For a score in [[-1, 1]] (a binary64 value), the polarity
    [round(score, 2)] of the response is a number of hundredths
    between -1 and 1: the float of [n / 100] for an integer [n] from
    -100 to 100, or the negative zero. *)
Theorem polarity_is_in_hundredths (x : float) :
  valid_binary 53 1024 x = true ->
  leb (SFopp one) x = true -> leb x one = true ->
  exists n,
    -100 <= n <= 100
    /\ (py_round2 x = int_truediv n 100
        \/ (n = 0 /\ py_round2 x = S754_zero true)).
Proof.
  intros V Lo Hi. rewrite one_eq in Lo, Hi.
  destruct x as [z|i| |s m e].
  - exists 0. split; [lia|]. destruct z; [right|left]; auto.
  - destruct i; discriminate.
  - discriminate.
  - pose proof (valid_significand s m e V) as M.
    assert (S : e < -52 \/ (e = -52 /\ Zpos m <= 2 ^ 52)).
    { revert Lo Hi. unfold leb, SFleb, SFopp.
      cbv beta iota delta [SFcompare negb].
      rewrite !compare_cont_eq. destruct s.
      - intros Lo _. rewrite (Z.compare_antisym e (-52)) in Lo.
        destruct (Z.compare_spec e (-52)) as [E|L|G]; cbn [CompOpp] in Lo;
          try discriminate Lo; [|lia].
        rewrite (Z.compare_antisym (Zpos m)) in Lo.
        destruct (Z.compare_spec (Zpos m) 4503599627370496);
          cbn [CompOpp] in Lo; try discriminate Lo;
          change (2 ^ 52) with 4503599627370496; lia.
      - intros _ Hi.
        destruct (Z.compare_spec e (-52)) as [E|L|G];
          try discriminate Hi; [|lia].
        destruct (Z.compare_spec (Zpos m) 4503599627370496);
          try discriminate Hi;
          change (2 ^ 52) with 4503599627370496; lia. }
    pose proof (hundredths_of_small m e M S) as B.
    unfold py_round2. set (n := round_of_parts (Zpos m * 100, e)) in *.
    clearbody n. destruct (Z.eq_dec n 0) as [->|NZ].
    + exists 0. split; [lia|]. destruct s; [right|left]; auto.
    + exists (if s then - n else n). split; [destruct s; lia|]. left.
      apply int_truediv_of_sign. lia.
Qed.

Lemma polarity_is_in_hundredths_witness :
  exists n,
    -100 <= n <= 100
    /\ (py_round2 (int_truediv (-333) 1000) = int_truediv n 100
        \/ (n = 0 /\ py_round2 (int_truediv (-333) 1000) = S754_zero true)).
Proof.
  apply (polarity_is_in_hundredths (int_truediv (-333) 1000));
    vm_compute; reflexivity.
Defined.

(** X13. The words that [text.split()] counts are not empty and hold
    no white space; put together they are the characters of the text
    that are not white space, in order; and there are at most
    [(len(text) + 1) / 2] of them. *)
Theorem split_words (text : pystr) :
  Forall (fun wd => wd <> [] /\ forallb nonspace wd = true) (split text)
  /\ List.concat (split text) = filter nonspace text
  /\ 2 * len (split text) <= len text + 1.
Proof.
  destruct (split_from_words [] text eq_refl) as [F C].
  split; [exact F|]. split; [exact C|].
  exact (split_from_count [] text).
Qed.

(** X14. The labels follow the subjectivity in its order: of two
    scores [s1 <= s2], the higher has no lower bias and no better
    credibility. *)
Theorem labels_are_monotone (s1 s2 : float) :
  leb s1 s2 = true ->
  (bias s2 = lit "Low" -> bias s1 = lit "Low")
  /\ (bias s1 = lit "High" -> bias s2 = lit "High")
  /\ (credibility s2 = lit "True" -> credibility s1 = lit "True")
  /\ (credibility s1 = lit "False" -> credibility s2 = lit "False").
Proof.
  intros L.
  assert (M3 : ltb s2 lit_0_3 = true -> ltb s1 lit_0_3 = true)
    by (rewrite lit_0_3_eq, !ltb_finite_iff; apply below_leb; exact L).
  assert (M5 : ltb s2 lit_0_5 = true -> ltb s1 lit_0_5 = true)
    by (rewrite lit_0_5_eq, !ltb_finite_iff; apply below_leb; exact L).
  assert (M7 : ltb s2 lit_0_7 = true -> ltb s1 lit_0_7 = true)
    by (rewrite lit_0_7_eq, !ltb_finite_iff; apply below_leb; exact L).
  destruct (bias_cases s1) as (Lo1 & _ & Hi1).
  destruct (bias_cases s2) as (Lo2 & _ & Hi2).
  destruct (credibility_cases s1) as (T1 & F1).
  destruct (credibility_cases s2) as (T2 & F2).
  repeat split.
  - intros H. apply Lo1, M3, Lo2, H.
  - intros H. apply Hi1 in H. destruct H as [H3 H7]. apply Hi2.
    split; [destruct (ltb s2 lit_0_3); [rewrite M3 in H3|];
            congruence
           |destruct (ltb s2 lit_0_7); [rewrite M7 in H7|]; congruence].
  - intros H. apply T1, M5, T2, H.
  - intros H. apply F1 in H. apply F2.
    destruct (ltb s2 lit_0_5); [rewrite M5 in H|]; congruence.
Qed.

Lemma labels_are_monotone_witness :
  let s1 := int_truediv 29 100 in
  let s2 := int_truediv 71 100 in
  (bias s2 = lit "Low" -> bias s1 = lit "Low")
  /\ (bias s1 = lit "High" -> bias s2 = lit "High")
  /\ (credibility s2 = lit "True" -> credibility s1 = lit "True")
  /\ (credibility s1 = lit "False" -> credibility s2 = lit "False").
Proof.
  apply (labels_are_monotone (int_truediv 29 100) (int_truediv 71 100)).
  vm_compute. reflexivity.
Defined.

(** X15. The request of [test_post.py] gets past the validation of
    [analyze]: when the server parses the body the script sends, the
    answer is never "No URL provided"; it is a 200, the 400 of an
    empty article, or a 500.  The script prints its status and text
    and ends with status 0 in all three cases. *)
Theorem test_post_gets_past_validation
    (w : World) (dumps : json -> pystr) :
  get_json w = Return TestPost.body ->
  let r := analyze w in
  TestPost.main (fun _ _ => Return (status r, dumps (fst r)))
  = ([lit "STATUS: " ++ of_int (status r);
      lit "RESPONSE: " ++ dumps (fst r)], 0)
  /\ r <> error_response (lit "No URL provided") 400
  /\ (status r = 200
      \/ r = error_response (lit "Unable to fetch article content") 400
      \/ status r = 500).
Proof.
  intros G r. split; [reflexivity|].
  assert (NN : ~ no_url w).
  { intros [(d & G' & L) | (v & (d & G' & L) & T)];
      rewrite G in G'; injection G' as <-.
    - discriminate L.
    - cbv in L. injection L as <-. discriminate T. }
  subst r.
  destruct (analyze_ways w)
    as [N | [(url & art & U & F & X) | [(e & R) | (art & a & R)]]].
  - destruct (NN N).
  - rewrite (analyze_empty_text w url art U F X).
    split; [intros H; clash H|]. right; left. reflexivity.
  - rewrite (analyze_exception w e R).
    split; [intros H; clash H|]. right; right. reflexivity.
  - destruct (analyze_success w art a R) as (n & _ & _ & E). rewrite E.
    split; [intros H; apply (f_equal snd) in H; clash H|]. left. reflexivity.
Qed.

Lemma test_post_gets_past_validation_witness :
  let r := analyze (Sample.with_body (Return TestPost.body)) in
  TestPost.main (fun _ _ => Return (status r, type_name (fst r)))
  = ([lit "STATUS: " ++ of_int (status r);
      lit "RESPONSE: " ++ type_name (fst r)], 0)
  /\ r <> error_response (lit "No URL provided") 400
  /\ (status r = 200
      \/ r = error_response (lit "Unable to fetch article content") 400
      \/ status r = 500).
Proof.
  exact (test_post_gets_past_validation
           (Sample.with_body (Return TestPost.body)) type_name eq_refl).
Defined.

(** X16. The summary of a 200 response of [analyze_local] has the
    length of the text up to 300 characters and 303 characters above:
    it is never longer than 303, and its first 300 characters are
    those of the text. *)
Theorem local_summary_length (w : World) :
  status (analyze_local w) = 200 ->
  exists t summary,
    sample_file w = Some (Return t)
    /\ field "summary" (analyze_local w) = Some (JStr summary)
    /\ len summary = (if 300 <? len t then 303 else len t)
    /\ len summary <= 303
    /\ firstn 300 summary = firstn 300 t.
Proof.
  intros S. destruct (analyze_local_ok_run w S) as (t & a & R).
  destruct (analyze_local_success w t a R) as (n & _ & _ & E).
  exists t. eexists. split; [apply R|].
  split; [rewrite E; reflexivity|].
  unfold prefix, len.
  destruct (Z.ltb_spec 300 (Z.of_nat (List.length t))) as [L|L].
  - rewrite length_app, length_firstn, Nat.min_l by lia.
    change (List.length (lit "...")) with 3%nat.
    split; [lia|]. split; [lia|].
    rewrite firstn_app, length_firstn, Nat.min_l by lia.
    rewrite Nat.sub_diag, firstn_O, app_nil_r, firstn_firstn, Nat.min_id.
    reflexivity.
  - rewrite app_nil_r, firstn_all2 by lia. split; [reflexivity|].
    split; [lia|]. rewrite ?firstn_all2 by lia. reflexivity.
Qed.

Lemma local_summary_length_witness :
  exists t summary,
    sample_file Sample.world = Some (Return t)
    /\ field "summary" (analyze_local Sample.world) = Some (JStr summary)
    /\ len summary = (if 300 <? len t then 303 else len t)
    /\ len summary <= 303
    /\ firstn 300 summary = firstn 300 t.
Proof. exact (local_summary_length Sample.world sample_local_ok). Defined.
